(** * monday-bot: the tool adapter and the chat loop of [agent.py]

    A shallow embedding of [build_sse_tools], of the [make_call] closures it
    creates, of the two module-level discoveries and of the command-line
    loop of [main], followed by the properties of the specification that
    were checked against them.

    Conventions of the embedding.
    - Python text is a [string]: a sequence of code points below 256.
    - JSON values are the Python objects [json.loads] builds from them.
    - The interpreter's library ([json.loads], [str] of a non-string, the
      text of an exception), the remote providers, the agent runtime and
      the constructor of its tool objects are outside the repository: they
      are the fields of four classes.  A statement holds for all their
      instances, unless it names the one it is about.
    - Exceptions are instances of [Exception].  [KeyboardInterrupt] and
      [SystemExit] are process-level signals and are not modelled. *)

From Stdlib Require Import ZArith String Ascii List.
From stdpp Require Import gmap strings list fin_maps.

Local Open Scope string_scope.
Local Open Scope list_scope.
Local Open Scope Z_scope.
Local Set Warnings "-register-all".

(** ** Text *)

Module Text.

(** The double quote and the line feed, as one-character strings. *)
Definition dq : string := String (ascii_of_nat 34) EmptyString.
Definition nl : string := String (ascii_of_nat 10) EmptyString.

(** [str.isspace] on one code point below 256: TAB..CR, FS..US, space,
    NEL and the no-break space. *)
Definition isspace (c : ascii) : bool :=
  let n := Z.of_nat (nat_of_ascii c) in
  ((9 <=? n) && (n <=? 13)) || ((28 <=? n) && (n <=? 32))
  || (n =? 133) || (n =? 160).

(** [str.lower] on one code point below 256: A..Z and the Latin-1 capitals
    (all of 192..222 but the multiplication sign 215) move up by 32. *)
Definition lower_char (c : ascii) : ascii :=
  let n := Z.of_nat (nat_of_ascii c) in
  if ((65 <=? n) && (n <=? 90))
     || ((192 <=? n) && (n <=? 222) && negb (n =? 215))
  then ascii_of_nat (Z.to_nat (n + 32)) else c.

Fixpoint lower (s : string) : string :=
  match s with
  | EmptyString => EmptyString
  | String c s' => String (lower_char c) (lower s')
  end.

Fixpoint lstrip (s : string) : string :=
  match s with
  | EmptyString => EmptyString
  | String c s' => if isspace c then lstrip s' else s
  end.

Fixpoint rstrip (s : string) : string :=
  match s with
  | EmptyString => EmptyString
  | String c s' =>
      match rstrip s' with
      | EmptyString => if isspace c then EmptyString else String c EmptyString
      | r => String c r
      end
  end.

(** [str.strip()] with no argument. *)
Definition strip (s : string) : string := rstrip (lstrip s).

(** The one-character strings a [for] loop over a [str] yields. *)
Fixpoint chars (s : string) : list string :=
  match s with
  | EmptyString => []
  | String c s' => String c EmptyString :: chars s'
  end.

End Text.

(** ** JSON values, as the Python objects they are loaded into *)

(** A [dict] keeps its insertion order, which is the order a [for] loop
    over it follows and the order [json=] serialises it in: an association
    list.  A [float] is carried as its IEEE-754 binary64 bit pattern. *)
Inductive json : Type :=
  | JNull
  | JBool (b : bool)
  | JInt (z : Z)
  | JFloat (bits : Z)
  | JString (s : string)
  | JArray (items : list json)
  | JObject (members : list (string * json)).

(** ** Exceptions *)

Inductive exn : Type :=
  | RequestException (msg : string)   (* connection error, timeout, ... *)
  | JSONDecodeError (doc : string)
  | HTTPError (status_code : Z)
  | AttributeError (obj : json) (attr : string)
  | TypeError (obj : json)
  | KeyError (key : string)
  | NameError (var : string)
  | UnexpectedKeyword (callee keyword : string)
      (* the [TypeError] of a call with a keyword the callee does not take *)
  | ImportError (what : string)
  | EOFError
  | RuntimeError (msg : string).      (* any other [Exception] *)

Inductive result (A : Type) : Type :=
  | Return (a : A)
  | Raise (e : exn).
Arguments Return {A} a.
Arguments Raise {A} e.

(** ** Operations of the interpreter used by the script *)

Module Py.

(** [d[k]] on a dict. *)
Fixpoint assoc (k : string) (d : list (string * json)) : option json :=
  match d with
  | [] => None
  | (k', v) :: d' => if String.eqb k k' then Some v else assoc k d'
  end.

(** [o[k]] with a [str] key [k]: only a dict accepts it. *)
Definition getitem (o : json) (k : string) : result json :=
  match o with
  | JObject d =>
      match assoc k d with
      | Some v => Return v
      | None => Raise (KeyError k)
      end
  | _ => Raise (TypeError o)
  end.

(** [o.get(k, default)]: only a dict has the method. *)
Definition get (o : json) (k : string) (default : json) : result json :=
  match o with
  | JObject d =>
      match assoc k d with
      | Some v => Return v
      | None => Return default
      end
  | _ => Raise (AttributeError o "get")
  end.

(** The items a [for] loop over [o] goes through. *)
Definition iter (o : json) : result (list json) :=
  match o with
  | JArray items => Return items
  | JString s => Return (map JString (Text.chars s))
  | JObject d => Return (map (fun kv => JString (fst kv)) d)
  | _ => Raise (TypeError o)
  end.

End Py.

(** What the script takes from the interpreter's library. *)
Class PyLib : Type := {
  (** [json.loads]; [None] when the text is not JSON. *)
  json_loads : string -> option json;
  (** [str(v)] for a value that is not a [str]. *)
  str_other : json -> string;
  (** [str(e)] for an exception. *)
  str_exn : exn -> string
}.

(** [f"{v}"]. *)
Definition format `{PyLib} (v : json) : string :=
  match v with
  | JString s => s
  | _ => str_other v
  end.

(** ** HTTP through [requests] *)

Inductive http_method : Type := GET | POST.

Record request : Type := {
  req_method : http_method;
  req_url : string;
  req_headers : gmap string string;
  req_json : option json;
  req_timeout : Z
}.

Record response : Type := {
  status_code : Z;
  text : string
}.

Inductive outcome : Type :=
  | Responds (r : response)
  | Fails (e : exn).

(** The remote side: what a request gets, given the requests sent before. *)
Class Remote : Type := {
  answer : list request -> request -> outcome
}.

(** [Response.ok]: [raise_for_status] raises for 400 <= status < 600. *)
Definition ok (r : response) : bool :=
  negb ((400 <=? status_code r) && (status_code r <? 600)).

Definition raise_for_status (r : response) : result unit :=
  if ok r then Return tt else Raise (HTTPError (status_code r)).

(** ** The process state and its monad *)

(** The activation record of one call of [build_sse_tools]: the variables
    its [make_call] closures close over.  [fr_t] is the loop variable [t];
    it is unbound until the loop starts. *)
Record frame : Type := {
  fr_endpoint : string;
  fr_headers : gmap string string;
  fr_t : option json
}.

(** A [make_call] function object: the activation it was defined in and
    its [__name__]. *)
Record closure : Type := {
  clo_frame : nat;
  clo_name : string
}.

(** A tool object of the agent runtime that holds the four keyword
    arguments of line 46. *)
Record FunctionTool : Type := {
  function : closure;
  name : string;
  description : json;
  parameters : json
}.

(** The constructor [FunctionTool] belongs to the runtime library.  Called
    with the keywords [function], [name], [description] and [parameters]
    it either raises, or gives an object that holds them;
    [FunctionTool_raises] is the exception of the first case. *)
Class Adk : Type := {
  FunctionTool_raises : closure -> string -> json -> json -> option exn
}.

(** The library the script imports.  The constructor of google-adk's
    [FunctionTool] takes the function as [func] and has none of the four
    keywords, so the call of line 46 is a [TypeError], on [function], the
    first of them. *)
Definition google_adk : Adk :=
  {| FunctionTool_raises := fun _ _ _ _ =>
       Some (UnexpectedKeyword "FunctionTool.__init__()" "function") |}.

Record world : Type := {
  frames : list frame;       (* live activations of [build_sse_tools] *)
  sent : list request;       (* requests issued so far, oldest first *)
  warnings : list string;    (* [logging.warning] messages, oldest first *)
  stdout : list string       (* chunks written to standard output *)
}.

Definition M (A : Type) : Type := world -> world * result A.

Definition ret {A} (a : A) : M A := fun w => (w, Return a).
Definition raise {A} (e : exn) : M A := fun w => (w, Raise e).
Definition bind {A B} (m : M A) (k : A -> M B) : M B :=
  fun w =>
    match m w with
    | (w', Return a) => k a w'
    | (w', Raise e) => (w', Raise e)
    end.
Definition lift {A} (r : result A) : M A := fun w => (w, r).

(** [try: m  except Exception as e: h e]. *)
Definition try_except {A} (m : M A) (h : exn -> M A) : M A :=
  fun w =>
    match m w with
    | (w', Return a) => (w', Return a)
    | (w', Raise e) => h e w'
    end.

Declare Scope py_scope.
Delimit Scope py_scope with py.
Notation "x <- m ;; k" := (bind m (fun x => k))
  (at level 100, m at next level, right associativity) : py_scope.
Notation "m ;;; k" := (bind m (fun _ => k))
  (at level 100, right associativity) : py_scope.
Local Open Scope py_scope.

Definition set_frames (fs : list frame) (w : world) : world :=
  {| frames := fs; sent := sent w; warnings := warnings w; stdout := stdout w |}.

(** Enter [build_sse_tools]: a fresh activation, whose index is returned. *)
Definition new_frame (fr : frame) : M nat :=
  fun w => (set_frames (frames w ++ [fr]) w, Return (length (frames w))).

(** Bind the loop variable [t] of activation [fid]. *)
Definition assign_t (fid : nat) (v : json) : M unit :=
  fun w =>
    (set_frames
       (alter (fun fr => {| fr_endpoint := fr_endpoint fr;
                            fr_headers := fr_headers fr;
                            fr_t := Some v |}) fid (frames w)) w,
     Return tt).

(** Read the free variables of a closure, at the time of the call. *)
Definition read_frame (fid : nat) : M frame :=
  fun w =>
    match frames w !! fid with
    | Some fr => (w, Return fr)
    | None => (w, Raise (NameError "t"))
    end.

Definition logging_warning (msg : string) : M unit :=
  fun w =>
    ({| frames := frames w; sent := sent w;
        warnings := warnings w ++ [msg]; stdout := stdout w |}, Return tt).

Definition write (chunk : string) : M unit :=
  fun w =>
    ({| frames := frames w; sent := sent w;
        warnings := warnings w; stdout := stdout w ++ [chunk] |}, Return tt).

(** [print(s)]. *)
Definition print (s : string) : M unit := write (s +:+ Text.nl).

(** Issue one request and wait for its outcome. *)
Definition send `{Remote} (rq : request) : M response :=
  fun w =>
    let w' := {| frames := frames w; sent := sent w ++ [rq];
                 warnings := warnings w; stdout := stdout w |} in
    match answer (sent w) rq with
    | Responds r => (w', Return r)
    | Fails e => (w', Raise e)
    end.

Definition requests_get `{Remote} (url : string)
    (headers : gmap string string) (timeout : Z) : M response :=
  send {| req_method := GET; req_url := url; req_headers := headers;
          req_json := None; req_timeout := timeout |}.

Definition requests_post `{Remote} (url : string) (body : json)
    (headers : gmap string string) (timeout : Z) : M response :=
  send {| req_method := POST; req_url := url; req_headers := headers;
          req_json := Some body; req_timeout := timeout |}.

(** [Response.json()]. *)
Definition response_json `{PyLib} (r : response) : result json :=
  match json_loads (text r) with
  | Some v => Return v
  | None => Raise (JSONDecodeError (text r))
  end.

(** ** 1. The tool adapter *)

(** [make_call(input_json)], for the function object [f].  Its free
    variables [endpoint], [headers] and [t] are read from the activation it
    was defined in when it is called. *)
Definition make_call `{PyLib} `{Remote} (f : closure) (input_json : string)
    : M string :=
  fr <- read_frame (clo_frame f) ;;
  t <- lift (match fr_t fr with
             | Some t => Return t
             | None => Raise (NameError "t")
             end) ;;
  tool <- lift (Py.getitem t "name") ;;
  arguments <- lift (match json_loads input_json with
                     | Some v => Return v
                     | None => Raise (JSONDecodeError input_json)
                     end) ;;
  let payload := JObject [("tool", tool); ("arguments", arguments)] in
  resp <- requests_post (fr_endpoint fr +:+ "/call") payload
                        (fr_headers fr) 15 ;;
  lift (raise_for_status resp) ;;;
  ret (text resp).

(** The body of the [for t in ...] loop, over the items still to visit;
    [tools] is the list built so far. *)
Fixpoint for_tools `{PyLib} `{Adk} (fid : nat) (name_prefix : string)
    (items : list json) (tools : list FunctionTool)
    : M (list FunctionTool) :=
  match items with
  | [] => ret tools
  | t :: rest =>
      (* [def make_call] makes a new function object at each round; its
         [__name__] is set once [tool_name] is known, so the record of the
         function is built there. *)
      assign_t fid t ;;;
      n <- lift (Py.getitem t "name") ;;
      let tool_name := name_prefix +:+ "_" +:+ format n in
      let make_call := {| clo_frame := fid; clo_name := tool_name |} in
      d <- lift (Py.getitem t "description") ;;
      p <- lift (Py.getitem t "inputSchema") ;;
      lift (match FunctionTool_raises make_call tool_name d p with
            | Some e => Raise e
            | None => Return tt
            end) ;;;
      for_tools fid name_prefix rest
        (tools ++ [{| function := make_call; name := tool_name;
                      description := d; parameters := p |}])
  end.

(** The [try] block of [build_sse_tools].  [headers or {}] is the given
    dict, or the empty one for [None]. *)
Definition discover `{PyLib} `{Remote} `{Adk} (endpoint name_prefix : string)
    (headers : option (gmap string string)) : M (list FunctionTool) :=
  let headers := default ∅ headers in
  fid <- new_frame {| fr_endpoint := endpoint; fr_headers := headers;
                      fr_t := None |} ;;
  resp <- requests_get (endpoint +:+ "/mcp") headers 10 ;;
  handshake <- lift (response_json resp) ;;
  listed <- lift (Py.get handshake "tools" (JArray [])) ;;
  items <- lift (Py.iter listed) ;;
  for_tools fid name_prefix items [].

Definition build_sse_tools `{PyLib} `{Remote} `{Adk}
    (endpoint name_prefix : string)
    (headers : option (gmap string string)) : M (list FunctionTool) :=
  try_except (discover endpoint name_prefix headers)
    (fun e =>
       logging_warning ("Failed to load tools from " +:+ endpoint +:+ ": "
                        +:+ str_exn e) ;;;
       ret []).

(** ** 2. The two tool bundles built when the module is loaded *)

Definition make_endpoint : string :=
  "https://us2.make.com/mcp/api/v1/u/12508d4f-a637-469c-8821-9c16667c0f41/sse".
Definition monday_endpoint : string := "https://mcp.monday.com/sse".

(** [monday_token] is the value of [MONDAY_API_TOKEN], empty when unset. *)
Definition monday_headers (monday_token : string) : gmap string string :=
  if String.eqb monday_token "" then ∅
  else {[ "Authorization" := "Bearer " +:+ monday_token ]}.

(** [make_tools + monday_tools], the tools the agent is created with. *)
Definition startup `{PyLib} `{Remote} `{Adk} (monday_token : string)
    : M (list FunctionTool) :=
  make_tools <- build_sse_tools make_endpoint "make" None ;;
  monday_tools <- build_sse_tools monday_endpoint "monday"
                    (Some (monday_headers monday_token)) ;;
  ret (make_tools ++ monday_tools).

(** ** 3. The chat loop *)

(** The value of an attribute of a runtime event, as far as the loop looks
    at it: its truth value and what [print] shows of it. *)
Inductive pyval : Type :=
  | PyNone
  | PyStr (s : string)
  | PyObj (truth : bool) (shown : string).

Definition truthy (v : pyval) : bool :=
  match v with
  | PyNone => false
  | PyStr s => negb (String.eqb s "")
  | PyObj b _ => b
  end.

Definition str (v : pyval) : string :=
  match v with
  | PyNone => "None"
  | PyStr s => s
  | PyObj _ shown => shown
  end.

(** An event of the response stream; [None] is [hasattr(event, ..)] false. *)
Record event : Type := {
  ev_content : option pyval;
  ev_text : option pyval
}.

(** One round of the [async for] body, on the current [final_response]. *)
Definition observe (final_response : pyval) (ev : event) : pyval :=
  match ev_content ev with
  | Some c =>
      if truthy c then c
      else match ev_text ev with
           | Some t => t
           | None => final_response
           end
  | None =>
      match ev_text ev with
      | Some t => t
      | None => final_response
      end
  end.

(** What the agent runtime does with one message, seen from this process:
    it yields events, calls registered tool functions and goes on with
    what they returned or raised, and either ends the stream or raises.
    [S] is the runtime's own state (agent, session) after the turn. *)
Inductive script (S : Type) : Type :=
  | Finish (s : S)
  | Throw (e : exn) (s : S)
  | Emit (ev : event) (k : script S)
  | Invoke (f : closure) (input_json : string) (k : result string -> script S).
Arguments Finish {S} s.
Arguments Throw {S} e s.
Arguments Emit {S} ev k.
Arguments Invoke {S} f input_json k.

(** The agent runtime: importing and building the [UserMessage], the call
    of [runner.run_async] and the stream it returns. *)
Class Runtime : Type := {
  session : Type;
  run_async : session -> string -> script session
}.

(** Lines 128-133: consume the stream, keeping [final_response]. *)
Fixpoint consume `{PyLib} `{Remote} {S : Type} (sc : script S)
    (final_response : pyval) (w : world) : world * S * result pyval :=
  match sc with
  | Finish s => (w, s, Return final_response)
  | Throw e s => (w, s, Raise e)
  | Emit ev k => consume k (observe final_response ev) w
  | Invoke f input_json k =>
      let (w', r) := make_call f input_json w in
      consume (k r) final_response w'
  end.

Definition placeholder : string := "No response received.".
Definition hint : string :=
  "Please make sure your GOOGLE_API_KEY is set and the MCP endpoints are accessible.".

(** [final_response or "No response received."], as printed. *)
Definition reply (final_response : pyval) : string :=
  if truthy final_response then str final_response else placeholder.

(** Lines 116-139: the [try] statement of one turn. *)
Definition turn `{PyLib} `{Remote} `{Runtime} (s : session) (user : string)
    (w : world) : world * session :=
  match consume (run_async s user) (PyStr "") w with
  | (w', s', Return final_response) =>
      (fst (print (reply final_response) w'), s')
  | (w', s', Raise e) =>
      (fst ((print ("Error: " +:+ str_exn e) ;;; print hint) w'), s')
  end.

Definition commands : gset string := {[ "quit"; "exit" ]}.

(** Line 113: [user.strip().lower() in {"quit", "exit"}]. *)
Definition is_quit (user : string) : bool :=
  bool_decide (Text.lower (Text.strip user) ∈ commands).

(** The states of the loop.  [UNCAUGHT e] is an exception leaving [main]:
    [input] raises [EOFError] outside the [try] when standard input ends. *)
Inductive state : Type :=
  | AWAITING_INPUT
  | PROCESSING (user : string)
  | TERMINATED
  | UNCAUGHT (e : exn).

Record config `{Runtime} : Type := {
  st : state;
  stdin : list string;     (* the lines still to be read *)
  sess : session;
  proc : world
}.

(** One transition of the loop: [input("> ")] and the test of line 113
    from [AWAITING_INPUT], the whole [try] statement from [PROCESSING]. *)
Definition step `{PyLib} `{Remote} `{Runtime} (c : config) : option config :=
  match st c with
  | AWAITING_INPUT =>
      let w := fst (write "> " (proc c)) in
      match stdin c with
      | [] =>
          Some {| st := UNCAUGHT EOFError; stdin := []; sess := sess c;
                  proc := w |}
      | user :: rest =>
          Some {| st := if is_quit user then TERMINATED else PROCESSING user;
                  stdin := rest; sess := sess c; proc := w |}
      end
  | PROCESSING user =>
      let (w, s) := turn (sess c) user (proc c) in
      Some {| st := AWAITING_INPUT; stdin := stdin c; sess := s; proc := w |}
  | TERMINATED => None
  | UNCAUGHT _ => None
  end.

(** [while True: ...], for at most [fuel] transitions. *)
Fixpoint run `{PyLib} `{Remote} `{Runtime} (fuel : nat) (c : config)
    : config :=
  match fuel with
  | O => c
  | S fuel' =>
      match step c with
      | Some c' => run fuel' c'
      | None => c
      end
  end.

Definition final (s : state) : bool :=
  match s with
  | TERMINATED | UNCAUGHT _ => true
  | _ => false
  end.

(** A stream that yields the events [evs] and ends. *)
Definition stream {S : Type} (evs : list event) (s : S) : script S :=
  fold_right Emit (Finish s) evs.

(** ** Abbreviations used in the statements *)

(** The request of line 32. *)
Definition manifest_request (endpoint : string)
    (headers : option (gmap string string)) : request :=
  {| req_method := GET; req_url := endpoint +:+ "/mcp";
     req_headers := default ∅ headers; req_json := None;
     req_timeout := 10 |}.

(** The request of line 38. *)
Definition call_request (fr : frame) (tool arguments : json) : request :=
  {| req_method := POST; req_url := fr_endpoint fr +:+ "/call";
     req_headers := fr_headers fr;
     req_json := Some (JObject [("tool", tool); ("arguments", arguments)]);
     req_timeout := 15 |}.

(** The texts an event shows: the non-empty strings among its [content]
    and its [text]. *)
Definition nonempty_text (a : option pyval) : list string :=
  match a with
  | Some (PyStr s) => if String.eqb s "" then [] else [s]
  | _ => []
  end.

Definition texts (ev : event) : list string :=
  nonempty_text (ev_content ev) ++ nonempty_text (ev_text ev).

(** The reply as the specification words it: the last non-empty text
    observed among the events of the stream, or the placeholder when
    there was none. *)
Definition last_nonempty_text (evs : list event) : option string :=
  last (concat (map texts evs)).

Definition specified_reply (evs : list event) : string :=
  default placeholder (last_nonempty_text evs).

(** The stub the loop builds for one manifest entry in activation [fid],
    when the entry is a dict with the three keys it reads. *)
Definition listed_stub `{PyLib} (fid : nat) (name_prefix : string)
    (entry : json) : option FunctionTool :=
  match Py.getitem entry "name", Py.getitem entry "description",
        Py.getitem entry "inputSchema" with
  | Return n, Return d, Return p =>
      Some {| function := {| clo_frame := fid;
                             clo_name := name_prefix +:+ "_" +:+ format n |};
              name := name_prefix +:+ "_" +:+ format n;
              description := d; parameters := p |}
  | _, _, _ => None
  end.

(** A text made of white space only. *)
Fixpoint blank (s : string) : bool :=
  match s with
  | EmptyString => true
  | String c s' => Text.isspace c && blank s'
  end.

(** A stream that yields the events [evs] and then raises [e]. *)
Definition broken_stream {S : Type} (evs : list event) (e : exn) (s : S)
    : script S :=
  fold_right Emit (Throw e s) evs.

(** The statuses HTTP calls successful: 200 to 299. *)
Definition success_status (status : Z) : bool :=
  (200 <=? status) && (status <? 300).




(** A request as a stub issues it. *)
Definition is_call (rq : request) : Prop :=
  req_method rq = POST /\ req_timeout rq = 15.

(** ** Concrete instances, used to run the definitions *)

Module Sample.

Definition q (s : string) : string := Text.dq +:+ s +:+ Text.dq.

(** [{"board_id": 1}] *)
Definition args_text : string := "{" +:+ q "board_id" +:+ ": 1}".
Definition args : json := JObject [("board_id", JInt 1)].

Definition entry (n d : string) : json :=
  JObject [("name", JString n); ("description", JString d);
           ("inputSchema", JObject [])].
Definition entry_text (n d : string) : string :=
  "{" +:+ q "name" +:+ ":" +:+ q n +:+ "," +:+ q "description" +:+ ":"
  +:+ q d +:+ "," +:+ q "inputSchema" +:+ ":{}}".

(** [{"tools":[{"name":"create_item","description":"x","inputSchema":{}}]}] *)
Definition one_tool_text : string :=
  "{" +:+ q "tools" +:+ ":[" +:+ entry_text "create_item" "x" +:+ "]}".
Definition one_tool : json := JObject [("tools", JArray [entry "create_item" "x"])].

Definition two_tools_text : string :=
  "{" +:+ q "tools" +:+ ":[" +:+ entry_text "create_item" "x" +:+ ","
  +:+ entry_text "delete_item" "y" +:+ "]}".
Definition two_tools : json :=
  JObject [("tools", JArray [entry "create_item" "x"; entry "delete_item" "y"])].

(** [{"tools":[]}] *)
Definition no_tools_text : string := "{" +:+ q "tools" +:+ ":[]}".
Definition no_tools : json := JObject [("tools", JArray [])].

(** [{"error":"unauthorized"}] *)
Definition error_text : string :=
  "{" +:+ q "error" +:+ ":" +:+ q "unauthorized" +:+ "}".
Definition error_body : json := JObject [("error", JString "unauthorized")].

(** A [json.loads] that knows the texts above and rejects the others. *)
Definition loads (s : string) : option json :=
  Py.assoc s [(args_text, args); (one_tool_text, one_tool);
              (two_tools_text, two_tools); (no_tools_text, no_tools);
              (error_text, error_body)].

Definition show_exn (e : exn) : string :=
  match e with
  | RequestException msg => msg
  | JSONDecodeError _ => "Expecting value"
  | HTTPError _ => "HTTP error"
  | AttributeError _ attr => "object has no attribute " +:+ attr
  | TypeError _ => "type error"
  | KeyError k => "'" +:+ k +:+ "'"
  | NameError v => "name " +:+ v +:+ " is not defined"
  | UnexpectedKeyword callee keyword =>
      callee +:+ " got an unexpected keyword argument '" +:+ keyword +:+ "'"
  | ImportError what => "cannot import name " +:+ what
  | EOFError => "EOF when reading a line"
  | RuntimeError msg => msg
  end.

Definition py : PyLib :=
  {| json_loads := loads; str_other := fun _ => "<object>";
     str_exn := show_exn |}.

(** A provider that gives [on_get] to every GET and [on_post] to every
    POST. *)
Definition remote (on_get on_post : outcome) : Remote :=
  {| answer := fun _ rq =>
       match req_method rq with
       | GET => on_get
       | POST => on_post
       end |}.

Definition http (status : Z) (body : string) : outcome :=
  Responds {| status_code := status; text := body |}.

(** A runtime without state that answers every message by calling the
    tool function [f] once and lets what the call raises through. *)
Definition calling (f : closure) : Runtime :=
  {| session := unit;
     run_async := fun _ _ =>
       Invoke f args_text (fun r =>
         match r with
         | Return body =>
             Emit {| ev_content := Some (PyStr body); ev_text := None |}
                  (Finish tt)
         | Raise e => Throw e tt
         end) |}.

(** A runtime without state that answers every message with the events
    [evs]. *)
Definition saying (evs : list event) : Runtime :=
  {| session := unit; run_async := fun _ _ => stream evs tt |}.

Definition fresh : world :=
  {| frames := []; sent := []; warnings := []; stdout := [] |}.

(** Providers: the manifest they serve and how they answer a call. *)
Definition one_tool_provider : Remote :=
  remote (http 200 one_tool_text) (http 200 "done").
Definition two_tools_provider : Remote :=
  remote (http 200 two_tools_text) (http 200 "done").
Definition no_tools_provider : Remote :=
  remote (http 200 no_tools_text) (http 200 "done").
Definition failing_provider : Remote :=
  remote (http 200 one_tool_text) (http 500 "boom").
Definition unauthorized_provider : Remote :=
  remote (http 401 error_text) (http 401 error_text).
(** The function object [make_call] that the first discovery defines for
    the first entry of its manifest. *)
Definition first_stub : closure :=
  {| clo_frame := 0; clo_name := "monday_create_item" |}.

(** The process right after one discovery of the monday provider. *)
Definition discovered (R : Remote) : world :=
  fst (@build_sse_tools py R google_adk monday_endpoint "monday" None fresh).

(** An event with a [content] and nothing else, one with a [text] and
    nothing else. *)
Definition content_event (s : string) : event :=
  {| ev_content := Some (PyStr s); ev_text := None |}.
Definition text_event (s : string) : event :=
  {| ev_content := None; ev_text := Some (PyStr s) |}.

(** A provider that cannot be reached. *)
Definition unreachable_provider : Remote :=
  remote (Fails (RequestException "timed out"))
         (Fails (RequestException "timed out")).

(** A provider whose answer is an error page, not JSON. *)
Definition html_provider : Remote :=
  remote (http 502 "<html>Bad Gateway</html>") (http 200 "done").

(** The JSON text [null], and a manifest whose second entry has a name
    but neither description nor inputSchema:
    [{"tools":[{"name":"create_item","description":"x","inputSchema":{}},
               {"name":"delete_item"}]}]. *)
Definition null_text : string := "null".
Definition half_entry : json := JObject [("name", JString "delete_item")].
Definition half_manifest_text : string :=
  "{" +:+ q "tools" +:+ ":[" +:+ entry_text "create_item" "x" +:+ ",{"
  +:+ q "name" +:+ ":" +:+ q "delete_item" +:+ "}]}".
Definition half_manifest : json :=
  JObject [("tools", JArray [entry "create_item" "x"; half_entry])].

(** A [json.loads] that also knows these two texts. *)
Definition loads_more (s : string) : option json :=
  Py.assoc s [(null_text, JNull); (half_manifest_text, half_manifest);
              (args_text, args); (one_tool_text, one_tool);
              (two_tools_text, two_tools)].

Definition py_more : PyLib :=
  {| json_loads := loads_more; str_other := fun _ => "<object>";
     str_exn := show_exn |}.

Definition null_provider : Remote :=
  remote (http 200 null_text) (http 200 "done").
Definition half_provider : Remote :=
  remote (http 200 half_manifest_text) (http 200 "done").

(** A provider that serves its manifest and answers every call with a
    redirection that has no target. *)
Definition redirecting_provider : Remote :=
  remote (http 200 one_tool_text) (http 302 "moved").

(** A provider that serves its manifest and then drops every call. *)
Definition dropping_provider : Remote :=
  remote (http 200 one_tool_text) (Fails (RequestException "timed out")).

(** A runtime without state whose stream yields [evs] and then raises. *)
Definition interrupted (evs : list event) (e : exn) : Runtime :=
  {| session := unit; run_async := fun _ _ => broken_stream evs e tt |}.

End Sample.

(** * Properties *)

(** ** The adapter: what a call leaves in the process state *)

Ltac run_monad :=
  unfold bind, lift, ret, raise, try_except, logging_warning, print, write,
    new_frame, assign_t, read_frame, requests_get, requests_post, send,
    set_frames; simpl.

Section Adapter.
Context `{PyLib} `{Remote} `{Adk}.

(** The loop touches nothing but the activation it runs in. *)
Lemma for_tools_quiet fid p items acc w :
  let w' := fst (for_tools fid p items acc w) in
  sent w' = sent w /\ warnings w' = warnings w /\ stdout w' = stdout w
  /\ length (frames w') = length (frames w).
Proof.
  revert acc w. induction items as [|t rest IH]; intros acc w; simpl.
  - auto.
  - run_monad.
    destruct (Py.getitem t "name") as [n|e]; simpl;
      [|rewrite length_alter; auto].
    destruct (Py.getitem t "description") as [d|e]; simpl;
      [|rewrite length_alter; auto].
    destruct (Py.getitem t "inputSchema") as [ps|e]; simpl;
      [|rewrite length_alter; auto].
    destruct (FunctionTool_raises _ _ _ _) as [e|]; simpl;
      [rewrite length_alter; auto|].
    match goal with |- context [for_tools fid p rest ?a ?v] =>
      destruct (IH a v) as (Hs & Hw & Ho & Hl) end.
    simpl in *. rewrite Hs, Hw, Ho, Hl, length_alter. auto.
Qed.

(** Other activations keep their variables. *)
Lemma for_tools_other_frames fid p items acc w j :
  j <> fid -> frames (fst (for_tools fid p items acc w)) !! j = frames w !! j.
Proof.
  intros Hj. revert acc w. induction items as [|t rest IH]; intros acc w; simpl.
  - reflexivity.
  - run_monad.
    assert (Hl : alter (fun fr => {| fr_endpoint := fr_endpoint fr;
                                     fr_headers := fr_headers fr;
                                     fr_t := Some t |}) fid (frames w) !! j
                 = frames w !! j)
      by (apply list_lookup_alter_ne; congruence).
    destruct (Py.getitem t "name") as [n|e]; simpl; [|exact Hl].
    destruct (Py.getitem t "description") as [d|e]; simpl; [|exact Hl].
    destruct (Py.getitem t "inputSchema") as [ps|e]; simpl; [|exact Hl].
    destruct (FunctionTool_raises _ _ _ _) as [e|]; simpl; [exact Hl|].
    rewrite IH. exact Hl.
Qed.

(** When the loop completes, [tools] holds one stub per item, in order,
    and the shared variable [t] is left at the last item. *)
Lemma for_tools_returns fid p items acc w w' tools fr :
  for_tools fid p items acc w = (w', Return tools) ->
  frames w !! fid = Some fr ->
  length tools = (length acc + length items)%nat
  /\ (forall i, (i < length acc)%nat -> tools !! i = acc !! i)
  /\ (forall i entry, items !! i = Some entry ->
        exists n d ps,
          Py.getitem entry "name" = Return n
          /\ Py.getitem entry "description" = Return d
          /\ Py.getitem entry "inputSchema" = Return ps
          /\ tools !! (length acc + i)%nat
             = Some {| function := {| clo_frame := fid;
                                      clo_name := p +:+ "_" +:+ format n |};
                       name := p +:+ "_" +:+ format n;
                       description := d; parameters := ps |})
  /\ frames w' !! fid
     = Some {| fr_endpoint := fr_endpoint fr; fr_headers := fr_headers fr;
               fr_t := match last items with
                       | Some t => Some t
                       | None => fr_t fr
                       end |}.
Proof.
  revert acc w fr. induction items as [|t rest IH]; intros acc w fr; simpl.
  - run_monad. intros [= <- <-] Hfr. repeat split.
    + lia.
    + intros i entry Hi. rewrite lookup_nil in Hi. discriminate.
    + rewrite Hfr. destruct fr; reflexivity.
  - run_monad. intros Hrun Hfr.
    destruct (Py.getitem t "name") as [n|e] eqn:Hn; simpl in Hrun;
      [|discriminate].
    destruct (Py.getitem t "description") as [d|e] eqn:Hd; simpl in Hrun;
      [|discriminate].
    destruct (Py.getitem t "inputSchema") as [ps|e] eqn:Hp; simpl in Hrun;
      [|discriminate].
    destruct (FunctionTool_raises _ _ _ _) as [e|]; simpl in Hrun;
      [discriminate|].
    eapply IH in Hrun as (Hlen & Hacc & Hitems & Hlast).
    2:{ simpl. rewrite list_lookup_alter_eq, Hfr. reflexivity. }
    simpl in Hlast. rewrite length_app in *. simpl in *.
    split; [lia|]. split; [|split].
    + intros i Hi. rewrite Hacc by lia. apply lookup_app_l. lia.
    + intros [|i] entry Hi; simpl in Hi.
      * injection Hi as <-. exists n, d, ps. repeat split; try assumption.
        rewrite Nat.add_0_r, Hacc by lia.
        rewrite lookup_app_r by lia. rewrite Nat.sub_diag. reflexivity.
      * destruct (Hitems i entry Hi) as (n' & d' & ps' & ? & ? & ? & Hl).
        exists n', d', ps'. repeat split; try assumption.
        rewrite <- Hl. f_equal. lia.
    + rewrite Hlast. destruct rest as [|t' rest']; [reflexivity|].
      change (last (t :: t' :: rest')) with (last (t' :: rest')).
      destruct (last (t' :: rest')) eqn:E; [reflexivity|].
      apply last_None in E. discriminate.
Qed.

(** What [discover] does, case by case. *)
Lemma discover_unfold endpoint p headers w :
  let fr := {| fr_endpoint := endpoint; fr_headers := default ∅ headers;
               fr_t := None |} in
  let w1 := {| frames := frames w ++ [fr];
               sent := sent w ++ [manifest_request endpoint headers];
               warnings := warnings w; stdout := stdout w |} in
  discover endpoint p headers w =
  match answer (sent w) (manifest_request endpoint headers) with
  | Fails e => (w1, Raise e)
  | Responds resp =>
      match json_loads (text resp) with
      | None => (w1, Raise (JSONDecodeError (text resp)))
      | Some handshake =>
          match Py.get handshake "tools" (JArray []) with
          | Raise e => (w1, Raise e)
          | Return listed =>
              match Py.iter listed with
              | Raise e => (w1, Raise e)
              | Return items =>
                  for_tools (length (frames w)) p items [] w1
              end
          end
      end
  end.
Proof.
  unfold discover, manifest_request, response_json. run_monad.
  destruct (answer _ _) as [resp|e]; simpl; [|reflexivity].
  destruct (json_loads (text resp)) as [handshake|]; simpl; [|reflexivity].
  destruct (Py.get handshake "tools" (JArray [])) as [listed|e]; simpl;
    [|reflexivity].
  destruct (Py.iter listed) as [items|e]; simpl; reflexivity.
Qed.

(** Discovery issues the GET of line 32 and nothing else, and neither
    logs nor prints. *)
Lemma discover_quiet endpoint p headers w :
  let w' := fst (discover endpoint p headers w) in
  sent w' = sent w ++ [manifest_request endpoint headers]
  /\ warnings w' = warnings w /\ stdout w' = stdout w.
Proof.
  rewrite discover_unfold.
  destruct (answer _ _) as [resp|e]; simpl; [|auto].
  destruct (json_loads (text resp)) as [handshake|]; simpl; [|auto].
  destruct (Py.get handshake "tools" (JArray [])) as [listed|e]; simpl;
    [|auto].
  destruct (Py.iter listed) as [items|e]; simpl; [|auto].
  match goal with |- context [for_tools ?f p items ?a ?v] =>
    destruct (for_tools_quiet f p items a v) as (Hs & Hw & Ho & _) end.
  simpl in *. auto.
Qed.

(** [build_sse_tools] in terms of its [try] block. *)
Lemma build_sse_tools_unfold endpoint p headers w :
  build_sse_tools endpoint p headers w =
  match discover endpoint p headers w with
  | (w', Return tools) => (w', Return tools)
  | (w', Raise e) =>
      ({| frames := frames w'; sent := sent w';
          warnings := warnings w'
                      ++ ["Failed to load tools from " +:+ endpoint +:+ ": "
                          +:+ str_exn e];
          stdout := stdout w' |}, Return [])
  end.
Proof.
  unfold build_sse_tools. run_monad.
  destruct (discover endpoint p headers w) as [w' [tools|e]]; reflexivity.
Qed.

(** [build_sse_tools] always returns a list to its caller. *)
Lemma build_sse_tools_returns endpoint p headers w :
  exists tools, snd (build_sse_tools endpoint p headers w) = Return tools.
Proof.
  rewrite build_sse_tools_unfold.
  destruct (discover endpoint p headers w) as [w' [tools|e]]; simpl; eauto.
Qed.

(** Whatever the [try] block raises is logged once and gives no tools. *)
Lemma build_sse_tools_caught endpoint p headers w w' e :
  discover endpoint p headers w = (w', Raise e) ->
  snd (build_sse_tools endpoint p headers w) = Return []
  /\ warnings (fst (build_sse_tools endpoint p headers w))
     = warnings w ++ ["Failed to load tools from " +:+ endpoint +:+ ": "
                      +:+ str_exn e].
Proof.
  intros Hd. rewrite build_sse_tools_unfold, Hd. simpl. split; [reflexivity|].
  pose proof (discover_quiet endpoint p headers w) as (_ & Hw & _).
  rewrite Hd in Hw. simpl in Hw. rewrite Hw. reflexivity.
Qed.

(** A warning is logged exactly when the [try] block raised, and the list
    is then empty. *)
Lemma build_sse_tools_warns endpoint p headers w :
  warnings (fst (build_sse_tools endpoint p headers w)) <> warnings w ->
  exists e, snd (discover endpoint p headers w) = Raise e
            /\ snd (build_sse_tools endpoint p headers w) = Return [].
Proof.
  rewrite build_sse_tools_unfold.
  pose proof (discover_quiet endpoint p headers w) as (_ & Hw & _).
  destruct (discover endpoint p headers w) as [w' [tools|e]]; simpl in *.
  - congruence.
  - eauto.
Qed.

(** The one request [build_sse_tools] issues. *)
Lemma build_sse_tools_sent endpoint p headers w :
  sent (fst (build_sse_tools endpoint p headers w))
  = sent w ++ [manifest_request endpoint headers].
Proof.
  rewrite build_sse_tools_unfold.
  pose proof (discover_quiet endpoint p headers w) as (Hs & _ & _).
  destruct (discover endpoint p headers w) as [w' [tools|e]]; simpl in *;
    exact Hs.
Qed.

(** A non-empty result comes from a manifest that was fetched, parsed and
    gone through to its end. *)
Lemma build_sse_tools_nonempty endpoint p headers w w' tools :
  build_sse_tools endpoint p headers w = (w', Return tools) ->
  tools <> [] ->
  exists resp handshake listed items,
    answer (sent w) (manifest_request endpoint headers) = Responds resp
    /\ json_loads (text resp) = Some handshake
    /\ Py.get handshake "tools" (JArray []) = Return listed
    /\ Py.iter listed = Return items
    /\ for_tools (length (frames w)) p items []
         {| frames := frames w
                      ++ [{| fr_endpoint := endpoint;
                             fr_headers := default ∅ headers;
                             fr_t := None |}];
            sent := sent w ++ [manifest_request endpoint headers];
            warnings := warnings w; stdout := stdout w |}
       = (w', Return tools).
Proof.
  rewrite build_sse_tools_unfold, discover_unfold. cbv zeta. intros Hb Hne.
  destruct (answer _ _) as [resp|e] eqn:Ha; simpl in Hb; [|congruence].
  destruct (json_loads (text resp)) as [handshake|] eqn:Hj; simpl in Hb;
    [|congruence].
  destruct (Py.get handshake "tools" (JArray [])) as [listed|e] eqn:Hg;
    simpl in Hb; [|congruence].
  destruct (Py.iter listed) as [items|e] eqn:Hi; simpl in Hb; [|congruence].
  match type of Hb with context [for_tools ?a ?b ?c ?d ?v] =>
    destruct (for_tools a b c d v) as [w1 [ts|e]] eqn:E end;
    [|injection Hb as _ Hnil; congruence].
  injection Hb as <- <-.
  exists resp, handshake, listed, items. auto.
Qed.

(** What [make_call] does, case by case. *)
Lemma make_call_unfold f input_json w :
  make_call f input_json w =
  match frames w !! clo_frame f with
  | None => (w, Raise (NameError "t"))
  | Some fr =>
      match fr_t fr with
      | None => (w, Raise (NameError "t"))
      | Some t =>
          match Py.getitem t "name" with
          | Raise e => (w, Raise e)
          | Return tool =>
              match json_loads input_json with
              | None => (w, Raise (JSONDecodeError input_json))
              | Some arguments =>
                  let rq := call_request fr tool arguments in
                  let w' := {| frames := frames w; sent := sent w ++ [rq];
                               warnings := warnings w; stdout := stdout w |} in
                  match answer (sent w) rq with
                  | Fails e => (w', Raise e)
                  | Responds resp =>
                      if ok resp then (w', Return (text resp))
                      else (w', Raise (HTTPError (status_code resp)))
                  end
              end
          end
      end
  end.
Proof.
  unfold make_call, call_request, raise_for_status. run_monad.
  destruct (frames w !! clo_frame f) as [fr|]; simpl; [|reflexivity].
  destruct (fr_t fr) as [t|]; simpl; [|reflexivity].
  destruct (Py.getitem t "name") as [tool|e]; simpl; [|reflexivity].
  destruct (json_loads input_json) as [arguments|]; simpl; [|reflexivity].
  destruct (answer _ _) as [resp|e]; simpl; [|reflexivity].
  destruct (ok resp); reflexivity.
Qed.

(** The statuses [raise_for_status] lets through. *)
Lemma ok_spec (r : response) :
  ok r = true <-> status_code r < 400 \/ 600 <= status_code r.
Proof.
  unfold ok.
  destruct (Z.leb_spec 400 (status_code r));
    destruct (Z.ltb_spec (status_code r) 600); simpl;
    split; intros; try lia; try reflexivity; discriminate.
Qed.

(** The activation a discovery runs in is the next free one. *)
Lemma lookup_new_frame (fs : list frame) (fr : frame) :
  (fs ++ [fr]) !! length fs = Some fr.
Proof. rewrite lookup_app_r by lia. rewrite Nat.sub_diag. reflexivity. Qed.

(** Late binding: every stub a discovery returns reads the same variable
    [t], which the loop left at the last entry of the manifest.  Called
    with valid JSON text, any of them issues one POST to
    [{endpoint}/call], with the headers of the discovery and with the
    name of that last entry under ["tool"].  This needs a constructor
    that accepts the keywords of line 46; with [google_adk] no discovery
    returns a stub. *)
Lemma stubs_share_last_entry endpoint p headers w w' tools tool
    input_json arguments :
  build_sse_tools endpoint p headers w = (w', Return tools) ->
  tool ∈ tools ->
  json_loads input_json = Some arguments ->
  exists resp handshake listed items t n,
    answer (sent w) (manifest_request endpoint headers) = Responds resp
    /\ json_loads (text resp) = Some handshake
    /\ Py.get handshake "tools" (JArray []) = Return listed
    /\ Py.iter listed = Return items
    /\ last items = Some t
    /\ Py.getitem t "name" = Return n
    /\ sent (fst (make_call (function tool) input_json w'))
       = sent w' ++ [call_request
                       {| fr_endpoint := endpoint;
                          fr_headers := default ∅ headers;
                          fr_t := Some t |} n arguments].
Proof.
  intros Hb Hin Hargs.
  assert (Hne : tools <> []) by (intros ->; inversion Hin).
  destruct (build_sse_tools_nonempty _ _ _ _ _ _ Hb Hne)
    as (resp & handshake & listed & items & Ha & Hj & Hg & Hi & Hf).
  eapply for_tools_returns in Hf as (Hlen & _ & Hitems & Hfr);
    [|apply lookup_new_frame].
  simpl in *.
  apply list_elem_of_lookup in Hin as [i Hi'].
  assert (Hlt : (i < length items)%nat)
    by (apply lookup_lt_Some in Hi'; lia).
  destruct (lookup_lt_is_Some_2 items i Hlt) as [entry He].
  destruct (Hitems i entry He) as (n0 & d0 & ps0 & _ & _ & _ & Ht).
  simpl in Ht. rewrite Hi' in Ht. injection Ht as ->.
  destruct (last items) as [t|] eqn:Hlast.
  2:{ apply last_None in Hlast. subst items. simpl in Hlt. lia. }
  destruct (proj1 (last_Some items t) Hlast) as [front ->].
  assert (Hlk : (front ++ [t]) !! length front = Some t)
    by (rewrite lookup_app_r by lia; rewrite Nat.sub_diag; reflexivity).
  destruct (Hitems _ _ Hlk) as (n & d & ps & Hn & _ & _ & _).
  exists resp, handshake, listed, (front ++ [t]), t, n.
  repeat (split; [assumption|]).
  rewrite make_call_unfold. simpl. rewrite Hfr. simpl. rewrite Hn, Hargs.
  cbv zeta.
  match goal with |- context [answer ?l ?rq] =>
    destruct (answer l rq) as [r|e] end;
    [destruct (ok r)|]; reflexivity.
Qed.

(** ** Claims on the adapter *)

(** C7: when the manifest was fetched and lists no tool (an empty
    ["tools"] list, or no ["tools"] key, which reads as the empty list),
    discovery returns the empty list and logs no warning. *)
Theorem empty_manifest_gives_no_stub_and_no_warning endpoint p headers w
    resp handshake :
  answer (sent w) (manifest_request endpoint headers) = Responds resp ->
  json_loads (text resp) = Some handshake ->
  Py.get handshake "tools" (JArray []) = Return (JArray []) ->
  snd (build_sse_tools endpoint p headers w) = Return []
  /\ warnings (fst (build_sse_tools endpoint p headers w)) = warnings w.
Proof.
  intros Ha Hj Hg.
  rewrite build_sse_tools_unfold, discover_unfold. cbv zeta.
  rewrite Ha, Hj, Hg. simpl. auto.
Qed.

(** C8, as amended: once the POST of a stub has an answer, the stub has
    issued that one request and no other (no retry); for a status in
    400..599 it raises [HTTPError] to its caller, and for every other
    status, the successful 200..299 and also what is left of 1xx, 3xx
    and 600 and above, it returns the body text as it is. *)
Theorem stub_returns_body_or_raises f input_json w fr t tool arguments resp :
  frames w !! clo_frame f = Some fr ->
  fr_t fr = Some t ->
  Py.getitem t "name" = Return tool ->
  json_loads input_json = Some arguments ->
  answer (sent w) (call_request fr tool arguments) = Responds resp ->
  sent (fst (make_call f input_json w))
  = sent w ++ [call_request fr tool arguments]
  /\ (status_code resp < 400 \/ 600 <= status_code resp ->
      snd (make_call f input_json w) = Return (text resp))
  /\ (400 <= status_code resp < 600 ->
      snd (make_call f input_json w) = Raise (HTTPError (status_code resp))).
Proof.
  intros Hf Ht Hn Hj Ha. rewrite make_call_unfold, Hf, Ht, Hn, Hj. cbv zeta.
  rewrite Ha. pose proof (ok_spec resp) as Hok.
  destruct (ok resp); simpl; repeat split; try reflexivity.
  - intros Hs. destruct Hok as [Hok _]. specialize (Hok eq_refl). lia.
  - intros Hs. destruct Hok as [_ Hok]. specialize (Hok Hs). discriminate.
Qed.

(** C9: the GET of a discovery goes to [{endpoint}/mcp] with a timeout of
    10 seconds and is the only request of the discovery; a stub issues at
    most one request, a POST to [{endpoint}/call] with a timeout of 15
    seconds. *)
Theorem timeouts_are_10_and_15_seconds endpoint p headers f input_json w :
  sent (fst (build_sse_tools endpoint p headers w))
  = sent w ++ [{| req_method := GET; req_url := endpoint +:+ "/mcp";
                  req_headers := default ∅ headers; req_json := None;
                  req_timeout := 10 |}]
  /\ (sent (fst (make_call f input_json w)) = sent w
      \/ exists fr body,
           frames w !! clo_frame f = Some fr
           /\ sent (fst (make_call f input_json w))
              = sent w ++ [{| req_method := POST;
                              req_url := fr_endpoint fr +:+ "/call";
                              req_headers := fr_headers fr;
                              req_json := Some body;
                              req_timeout := 15 |}]).
Proof.
  split; [apply build_sse_tools_sent|].
  rewrite make_call_unfold.
  destruct (frames w !! clo_frame f) as [fr|]; [|auto].
  destruct (fr_t fr) as [t|]; [|auto].
  destruct (Py.getitem t "name") as [tool|e]; [|auto].
  destruct (json_loads input_json) as [arguments|]; [|auto].
  right. exists fr, (JObject [("tool", tool); ("arguments", arguments)]).
  split; [reflexivity|]. cbv zeta.
  match goal with |- context [answer ?l ?rq] =>
    destruct (answer l rq) as [r|e] end;
    [destruct (ok r)|]; reflexivity.
Qed.

(** C10: when the argument text is not JSON the stub raises and leaves
    the process state as it was: no request is sent.  For a stub whose
    variables are bound as discovery leaves them, what it raises is the
    decoding error. *)
Theorem malformed_arguments_raise_before_any_request f input_json w :
  json_loads input_json = None ->
  exists e,
    make_call f input_json w = (w, Raise e)
    /\ (forall fr t tool,
          frames w !! clo_frame f = Some fr ->
          fr_t fr = Some t ->
          Py.getitem t "name" = Return tool ->
          e = JSONDecodeError input_json).
Proof.
  intros Hj. rewrite make_call_unfold.
  destruct (frames w !! clo_frame f) as [fr|];
    [|eexists; split; [reflexivity|intros; discriminate]].
  destruct (fr_t fr) as [t|] eqn:Ht;
    [|eexists; split; [reflexivity|]; intros ? ? ? [= <-]; congruence].
  destruct (Py.getitem t "name") as [tool|e] eqn:Hn.
  - rewrite Hj. eexists; split; reflexivity.
  - eexists; split; [reflexivity|].
    intros ? ? ? [= <-] Ht'. rewrite Ht in Ht'. injection Ht' as <-.
    congruence.
Qed.

End Adapter.

(** ** The chat loop *)

Section Loop.
Context `{PyLib} `{Remote} `{Runtime}.


(** A stream that only yields events leaves the process state alone and
    ends with the events folded into [final_response]. *)
Lemma consume_stream {S : Type} (evs : list event) (s : S) v w :
  consume (stream evs s) v w = (w, s, Return (fold_left observe evs v)).
Proof.
  revert v. induction evs as [|ev evs IH]; intros v; simpl.
  - reflexivity.
  - apply IH.
Qed.

(** What a turn prints, by the way the stream ended. *)
Lemma turn_unfold s user w :
  turn s user w =
  match consume (run_async s user) (PyStr "") w with
  | (w', s', Return v) =>
      ({| frames := frames w'; sent := sent w'; warnings := warnings w';
          stdout := stdout w' ++ [reply v +:+ Text.nl] |}, s')
  | (w', s', Raise e) =>
      ({| frames := frames w'; sent := sent w'; warnings := warnings w';
          stdout := stdout w' ++ ["Error: " +:+ str_exn e +:+ Text.nl]
                    ++ [hint +:+ Text.nl] |}, s')
  end.
Proof.
  unfold turn.
  destruct (consume (run_async s user) (PyStr "") w) as [[w' s'] [v|e]].
  - reflexivity.
  - run_monad. rewrite <- app_assoc. reflexivity.
Qed.

(** A transition never puts a line back on standard input. *)
Lemma step_stdin c c' :
  step c = Some c' -> exists read, stdin c = read ++ stdin c'.
Proof.
  unfold step. destruct (st c).
  - destruct (stdin c) as [|user rest]; intros [= <-]; simpl.
    + exists []. reflexivity.
    + exists [user]. reflexivity.
  - destruct (turn (sess c) user (proc c)) as [w s]. intros [= <-].
    exists []. reflexivity.
  - discriminate.
  - discriminate.
Qed.

(** When standard input ends, [input] raises [EOFError] outside the
    [try]: the loop is left by that exception, not through [TERMINATED]. *)
Lemma step_end_of_input c :
  st c = AWAITING_INPUT -> stdin c = [] ->
  exists c', step c = Some c' /\ st c' = UNCAUGHT EOFError.
Proof.
  intros Hc Hl. unfold step. rewrite Hc, Hl. eexists. split; reflexivity.
Qed.

(** Where a transition into [TERMINATED] comes from. *)
Lemma step_terminated c c' :
  step c = Some c' -> st c' = TERMINATED ->
  st c = AWAITING_INPUT
  /\ exists user, stdin c = user :: stdin c' /\ is_quit user = true.
Proof.
  unfold step. destruct (st c).
  - destruct (stdin c) as [|user rest]; intros [= <-]; simpl.
    + discriminate.
    + destruct (is_quit user) eqn:Hq; [|discriminate].
      intros _. split; [reflexivity|]. exists user. auto.
  - destruct (turn (sess c) user (proc c)) as [w s]. intros [= <-].
    discriminate.
  - discriminate.
  - discriminate.
Qed.

(** X14: over any number of transitions, the loop that has not ended is
    found in [TERMINATED] only if one of the lines of its input is quit or
    exit once stripped and lowered. *)
Lemma run_terminated fuel c :
  st c <> TERMINATED ->
  st (run fuel c) = TERMINATED ->
  exists user, user ∈ stdin c /\ is_quit user = true.
Proof.
  revert c. induction fuel as [|fuel IH]; intros c Hc; simpl.
  - congruence.
  - destruct (step c) as [c'|] eqn:Hs; [|congruence].
    intros Hr. destruct (step_stdin c c' Hs) as [read Hread].
    destruct (st c') eqn:Hc'.
    + destruct (IH c') as (user & Hin & Hq); [congruence|assumption|].
      exists user. rewrite Hread. split; [set_solver|assumption].
    + destruct (IH c') as (u & Hin & Hq); [congruence|assumption|].
      exists u. rewrite Hread. split; [set_solver|assumption].
    + destruct (step_terminated c c' Hs Hc') as (_ & user & Hu & Hq).
      exists user. rewrite Hu. split; [set_solver|assumption].
    + destruct fuel; simpl in Hr.
      * congruence.
      * unfold step in Hr. rewrite Hc' in Hr. congruence.
Qed.

(** Two transitions take the loop through a line that is not a command. *)
Lemma run_line fuel c line rest :
  st c = AWAITING_INPUT ->
  stdin c = line :: rest ->
  is_quit line = false ->
  run (S (S fuel)) c
  = run fuel
      {| st := AWAITING_INPUT; stdin := rest;
         sess := snd (turn (sess c) line (fst (write "> " (proc c))));
         proc := fst (turn (sess c) line (fst (write "> " (proc c)))) |}.
Proof.
  intros Hc Hl Hq. cbn [run]. unfold step at 1. rewrite Hc, Hl, Hq.
  unfold step at 1. cbn [st sess proc stdin].
  destruct (turn (sess c) line _) as [w s]. reflexivity.
Qed.

(** The loop always comes to an end on a finite input: two transitions
    per line and one more are enough. *)
Lemma run_reaches_final c :
  st c = AWAITING_INPUT ->
  final (st (run (2 * length (stdin c) + 1) c)) = true.
Proof.
  remember (stdin c) as lines eqn:Hl. revert c Hl.
  induction lines as [|user rest IH]; intros c Hl Hc.
  - simpl. unfold step. rewrite Hc, <- Hl. reflexivity.
  - replace (2 * length (user :: rest) + 1)%nat
      with (S (S (2 * length rest + 1))) by (simpl; lia).
    destruct (is_quit user) eqn:Hq.
    + cbn [run]. unfold step at 1. rewrite Hc, <- Hl, Hq.
      unfold step. simpl. reflexivity.
    + rewrite (run_line _ c user rest) by auto. apply IH; reflexivity.
Qed.



(** ** Claims on the chat loop *)

(** C3: from [PROCESSING] the loop always moves to [AWAITING_INPUT],
    whether the turn ended normally (the reply is printed) or raised (a
    diagnostic and a hint are printed, whatever was raised, an error of a
    tool stub included); and a transition into [TERMINATED] is always the
    reading of a line that is quit or exit once stripped and lowered. *)
Theorem processing_returns_to_awaiting_input (c : config) :
  (forall user, st c = PROCESSING user ->
     exists c',
       step c = Some c' /\ st c' = AWAITING_INPUT /\ stdin c' = stdin c
       /\ match consume (run_async (sess c) user) (PyStr "") (proc c) with
          | (w, s, Return v) =>
              sess c' = s
              /\ stdout (proc c') = stdout w ++ [reply v +:+ Text.nl]
          | (w, s, Raise e) =>
              sess c' = s
              /\ stdout (proc c')
                 = stdout w ++ ["Error: " +:+ str_exn e +:+ Text.nl;
                                hint +:+ Text.nl]
          end)
  /\ (forall c', step c = Some c' -> st c' = TERMINATED ->
        st c = AWAITING_INPUT
        /\ exists user, head (stdin c) = Some user /\ is_quit user = true).
Proof.
  split.
  - intros user Hc. unfold step. rewrite Hc, turn_unfold.
    destruct (consume (run_async (sess c) user) (PyStr "") (proc c))
      as [[w s] [v|e]]; eexists; simpl; auto.
  - intros c' Hs Ht.
    destruct (step_terminated c c' Hs Ht) as (Hc & user & Hu & Hq).
    split; [assumption|]. exists user. rewrite Hu. auto.
Qed.


End Loop.

(** What the loop prints agrees with the specification on the streams
    whose events carry a string [content], or none, and no [text]. *)
Lemma reply_of_contents_from (evs : list event) (s : string) :
  Forall (fun ev => ev_text ev = None
                    /\ (ev_content ev = None
                        \/ exists c, ev_content ev = Some (PyStr c))) evs ->
  reply (fold_left observe evs (PyStr s))
  = default (reply (PyStr s)) (last_nonempty_text evs).
Proof.
  unfold last_nonempty_text. intros Hall. revert s.
  induction Hall as [|ev evs (Ht & Hc) _ IH]; intros s.
  - reflexivity.
  - cbn [fold_left map concat]. rewrite last_app.
    unfold observe, texts at 2. rewrite Ht.
    destruct Hc as [-> | [c ->]]; cbn [nonempty_text truthy].
    + rewrite IH. simpl. destruct (last _); reflexivity.
    + destruct (String.eqb c "") eqn:Hc; cbn [negb app].
      * rewrite IH. simpl. destruct (last _); reflexivity.
      * rewrite IH. destruct (last (concat (map texts evs))); [reflexivity|].
        simpl. unfold reply. simpl. rewrite Hc. reflexivity.
Qed.

Lemma reply_of_contents (evs : list event) :
  Forall (fun ev => ev_text ev = None
                    /\ (ev_content ev = None
                        \/ exists c, ev_content ev = Some (PyStr c))) evs ->
  reply (fold_left observe evs (PyStr "")) = specified_reply evs.
Proof. intros Hall. apply (reply_of_contents_from evs "" Hall). Qed.

(** ** The definitions at work on concrete inputs *)

Example strip_lower_examples :
  is_quit "  QUIT " = true /\ is_quit ("Exit" +:+ Text.nl) = true
  /\ is_quit "quit now" = false /\ is_quit "" = false
  /\ is_quit "list my boards" = false.
Proof. vm_compute. auto. Qed.

(** ** Discovery with the library as it is *)

Section Library.
Context `{PyLib} `{Remote}.

(** With [google_adk] the loop cannot get past an entry: either a key is
    missing or the constructor raises. *)
Lemma for_tools_stops fid p t rest acc w :
  exists e, snd (@for_tools _ google_adk fid p (t :: rest) acc w) = Raise e.
Proof.
  simpl. run_monad.
  destruct (Py.getitem t "name") as [n|e]; simpl; eauto.
  destruct (Py.getitem t "description") as [d|e]; simpl; eauto.
  destruct (Py.getitem t "inputSchema") as [ps|e]; simpl; eauto.
Qed.

(** An entry with the three keys gets as far as the constructor. *)
Lemma for_tools_stops_at_the_constructor fid p t rest acc w stub :
  listed_stub fid p t = Some stub ->
  snd (@for_tools _ google_adk fid p (t :: rest) acc w)
  = Raise (UnexpectedKeyword "FunctionTool.__init__()" "function").
Proof.
  unfold listed_stub. simpl. run_monad.
  destruct (Py.getitem t "name") as [n|e]; simpl; [|discriminate].
  destruct (Py.getitem t "description") as [d|e]; simpl; [|discriminate].
  destruct (Py.getitem t "inputSchema") as [ps|e]; simpl; [|discriminate].
  reflexivity.
Qed.

(** With [google_adk] a discovery ends in the empty list on every path:
    the [try] block raises, or the list of the manifest is empty. *)
Lemma build_sse_tools_gives_nothing endpoint p headers w :
  snd (@build_sse_tools _ _ google_adk endpoint p headers w) = Return [].
Proof.
  rewrite build_sse_tools_unfold, discover_unfold. cbv zeta.
  destruct (answer _ _) as [resp|e]; simpl; [|reflexivity].
  destruct (json_loads (text resp)) as [handshake|]; simpl; [|reflexivity].
  destruct (Py.get handshake "tools" (JArray [])) as [listed|e]; simpl;
    [|reflexivity].
  destruct (Py.iter listed) as [[|t rest]|e]; [reflexivity| |reflexivity].
  cbv beta iota.
  match goal with |- context [for_tools ?f p (t :: rest) ?a ?v] =>
    destruct (for_tools_stops f p t rest a v) as [e He];
    destruct (for_tools f p (t :: rest) a v) as [w' [ts|e']]
  end; simpl in *; [discriminate|reflexivity].
Qed.


End Library.

(** ** Claims the code does not meet *)

(** C6: the manifest of the specification's scenario, one entry
    [create_item] fetched with the prefix [monday], should give exactly
    one stub, registered as [monday_create_item].  It gives none: the
    constructor call of line 46 is a [TypeError], which the [except]
    turns into a warning and the empty list. *)
Theorem scenario_manifest_registers_no_stub :
  snd (@build_sse_tools Sample.py Sample.one_tool_provider google_adk
         monday_endpoint "monday" None Sample.fresh) = Return []
  /\ warnings (fst (@build_sse_tools Sample.py Sample.one_tool_provider
                      google_adk monday_endpoint "monday" None
                      Sample.fresh))
     = ["Failed to load tools from https://mcp.monday.com/sse: "
        +:+ "FunctionTool.__init__() got an unexpected keyword argument "
        +:+ "'function'"].
Proof. split; reflexivity. Qed.

(** C2: an HTTP error answer to the discovery GET should be logged as a
    warning and give no tools.  The status of that answer is never looked
    at: a 401 whose body is the JSON object [{"error":"unauthorized"}]
    gives the empty list without any warning. *)
Theorem discovery_ignores_the_http_status :
  snd (@build_sse_tools Sample.py Sample.unauthorized_provider google_adk
         monday_endpoint "monday" None Sample.fresh) = Return []
  /\ warnings (fst (@build_sse_tools Sample.py Sample.unauthorized_provider
                      google_adk monday_endpoint "monday" None
                      Sample.fresh)) = [].
Proof. split; reflexivity. Qed.

(** C8, as worded: a status that is not a success should make the stub
    raise.  302 is no success, and when the POST of a stub is answered
    302 with the body [moved] the stub returns that body. *)
Lemma redirection_is_returned_not_raised :
  success_status 302 = false
  /\ snd (@make_call Sample.py Sample.redirecting_provider Sample.first_stub
            Sample.args_text
            (Sample.discovered Sample.redirecting_provider))
     = Return "moved".
Proof. split; reflexivity. Qed.

(** C5: the reply should be the last non-empty text of the stream.  For a
    stream of two events, a [content] of [Hello] and then an empty [text],
    that text is [Hello], but the second event resets [final_response] to
    the empty string and the turn prints the placeholder. *)
Theorem empty_text_erases_the_reply :
  let evs := [Sample.content_event "Hello"; Sample.text_event ""] in
  specified_reply evs = "Hello"
  /\ reply (fold_left observe evs (PyStr "")) = placeholder
  /\ stdout (fst (@turn Sample.py Sample.one_tool_provider
                    (Sample.saying evs) tt "hi" Sample.fresh))
     = ["No response received." +:+ Text.nl].
Proof. repeat split; reflexivity. Qed.

(** ** The claims that hold, at concrete inputs *)

Lemma empty_manifest_gives_no_stub_and_no_warning_witness :
  snd (@build_sse_tools Sample.py Sample.no_tools_provider google_adk
         monday_endpoint "monday" None Sample.fresh) = Return []
  /\ warnings (fst (@build_sse_tools Sample.py Sample.no_tools_provider
                      google_adk monday_endpoint "monday" None
                      Sample.fresh))
     = warnings Sample.fresh.
Proof.
  eapply (@empty_manifest_gives_no_stub_and_no_warning Sample.py
            Sample.no_tools_provider google_adk monday_endpoint "monday"
            None Sample.fresh); reflexivity.
Defined.

Lemma stub_returns_body_or_raises_witness :
  snd (@make_call Sample.py Sample.one_tool_provider Sample.first_stub
         Sample.args_text (Sample.discovered Sample.one_tool_provider))
  = Return "done"
  /\ snd (@make_call Sample.py Sample.failing_provider Sample.first_stub
            Sample.args_text (Sample.discovered Sample.failing_provider))
     = Raise (HTTPError 500).
Proof.
  split.
  - refine (proj1 (proj2 (@stub_returns_body_or_raises Sample.py
                            Sample.one_tool_provider Sample.first_stub
                            Sample.args_text
                            (Sample.discovered Sample.one_tool_provider)
                            _ _ _ _ _ eq_refl eq_refl eq_refl eq_refl
                            eq_refl)) _).
    left. simpl. lia.
  - refine (proj2 (proj2 (@stub_returns_body_or_raises Sample.py
                            Sample.failing_provider Sample.first_stub
                            Sample.args_text
                            (Sample.discovered Sample.failing_provider)
                            _ _ _ _ _ eq_refl eq_refl eq_refl eq_refl
                            eq_refl)) _).
    simpl. lia.
Defined.

Lemma malformed_arguments_raise_before_any_request_witness :
  @make_call Sample.py Sample.one_tool_provider Sample.first_stub
    "{board_id: 1" (Sample.discovered Sample.one_tool_provider)
  = (Sample.discovered Sample.one_tool_provider,
     Raise (JSONDecodeError "{board_id: 1")).
Proof.
  destruct (@malformed_arguments_raise_before_any_request Sample.py
              Sample.one_tool_provider Sample.first_stub "{board_id: 1"
              (Sample.discovered Sample.one_tool_provider) eq_refl)
    as (e & Hrun & He).
  rewrite Hrun. f_equal. f_equal. eapply He; reflexivity.
Defined.

(** The runtime calls a monday stub, the provider answers 500: the turn
    prints the error and the loop is back at the prompt. *)
Lemma processing_returns_to_awaiting_input_witness :
  let c := @Build_config (Sample.calling Sample.first_stub)
             (PROCESSING "list my boards") ["quit"] tt
             (Sample.discovered Sample.failing_provider) in
  exists c',
    @step Sample.py Sample.failing_provider
      (Sample.calling Sample.first_stub) c = Some c'
    /\ st c' = AWAITING_INPUT
    /\ stdout (proc c')
       = ["Error: HTTP error" +:+ Text.nl; hint +:+ Text.nl].
Proof.
  intros c.
  destruct (proj1 (@processing_returns_to_awaiting_input Sample.py
                     Sample.failing_provider
                     (Sample.calling Sample.first_stub) c)
              "list my boards" eq_refl)
    as (c' & Hstep & Hst & _ & Hout).
  exists c'. split; [exact Hstep|]. split; [exact Hst|].
  exact (proj2 Hout).
Defined.


(** * Further properties of the code *)

(** ** Discovery, manifest by manifest *)

Section Discovery.
Context `{PyLib} `{Remote} `{Adk}.

(** The loop raises at the first entry it cannot read. *)
Lemma for_tools_raises fid p items acc w :
  Exists (fun entry => listed_stub fid p entry = None) items ->
  exists e, snd (for_tools fid p items acc w) = Raise e.
Proof.
  intros Hbad. revert acc w.
  induction Hbad as [t rest Hnone | t rest _ IH]; intros acc w;
    simpl; run_monad; unfold listed_stub in *;
    destruct (Py.getitem t "name") as [n|e]; simpl; eauto;
    destruct (Py.getitem t "description") as [d|e]; simpl; eauto;
    destruct (Py.getitem t "inputSchema") as [ps|e]; simpl; eauto.
  - discriminate.
  - destruct (FunctionTool_raises _ _ _ _) as [e|]; simpl; eauto.
Qed.

(** The outcome of a discovery whose manifest was fetched and lists
    [items]. *)
Lemma build_sse_tools_listed endpoint p headers w resp handshake items :
  answer (sent w) (manifest_request endpoint headers) = Responds resp ->
  json_loads (text resp) = Some handshake ->
  Py.get handshake "tools" (JArray []) = Return (JArray items) ->
  build_sse_tools endpoint p headers w =
  match for_tools (length (frames w)) p items []
          {| frames := frames w
                       ++ [{| fr_endpoint := endpoint;
                              fr_headers := default ∅ headers;
                              fr_t := None |}];
             sent := sent w ++ [manifest_request endpoint headers];
             warnings := warnings w; stdout := stdout w |} with
  | (w', Return tools) => (w', Return tools)
  | (w', Raise e) =>
      ({| frames := frames w'; sent := sent w';
          warnings := warnings w'
                      ++ ["Failed to load tools from " +:+ endpoint +:+ ": "
                          +:+ str_exn e];
          stdout := stdout w' |}, Return [])
  end.
Proof.
  intros Ha Hj Hg. rewrite build_sse_tools_unfold, discover_unfold. cbv zeta.
  rewrite Ha, Hj, Hg. reflexivity.
Qed.

(** X1: when the discovery GET fails below HTTP (no connection, timeout),
    [build_sse_tools] returns the empty list and logs exactly one warning,
    which names the endpoint and shows the exception. *)
Theorem unreachable_provider_gives_no_tools endpoint p headers w e :
  answer (sent w) (manifest_request endpoint headers) = Fails e ->
  snd (build_sse_tools endpoint p headers w) = Return []
  /\ warnings (fst (build_sse_tools endpoint p headers w))
     = warnings w ++ ["Failed to load tools from " +:+ endpoint +:+ ": "
                      +:+ str_exn e].
Proof.
  intros Ha. apply build_sse_tools_caught with
    (w' := {| frames := frames w
                        ++ [{| fr_endpoint := endpoint;
                               fr_headers := default ∅ headers;
                               fr_t := None |}];
              sent := sent w ++ [manifest_request endpoint headers];
              warnings := warnings w; stdout := stdout w |}).
  rewrite discover_unfold. cbv zeta. rewrite Ha. reflexivity.
Qed.

(** X2: when the body of the discovery answer is not JSON, whatever its
    status, [build_sse_tools] returns the empty list and logs exactly one
    warning, for the decoding error. *)
Theorem non_json_manifest_gives_no_tools endpoint p headers w resp :
  answer (sent w) (manifest_request endpoint headers) = Responds resp ->
  json_loads (text resp) = None ->
  snd (build_sse_tools endpoint p headers w) = Return []
  /\ warnings (fst (build_sse_tools endpoint p headers w))
     = warnings w ++ ["Failed to load tools from " +:+ endpoint +:+ ": "
                      +:+ str_exn (JSONDecodeError (text resp))].
Proof.
  intros Ha Hj. apply build_sse_tools_caught with
    (w' := {| frames := frames w
                        ++ [{| fr_endpoint := endpoint;
                               fr_headers := default ∅ headers;
                               fr_t := None |}];
              sent := sent w ++ [manifest_request endpoint headers];
              warnings := warnings w; stdout := stdout w |}).
  rewrite discover_unfold. cbv zeta. rewrite Ha, Hj. reflexivity.
Qed.

(** X3: a manifest that is JSON but not an object (a list, a string, a
    number, [null]) has no [get]: the result is the empty list and one
    warning, for the [AttributeError]. *)
Theorem manifest_that_is_no_object_gives_no_tools endpoint p headers w
    resp handshake :
  answer (sent w) (manifest_request endpoint headers) = Responds resp ->
  json_loads (text resp) = Some handshake ->
  (forall members, handshake <> JObject members) ->
  snd (build_sse_tools endpoint p headers w) = Return []
  /\ warnings (fst (build_sse_tools endpoint p headers w))
     = warnings w ++ ["Failed to load tools from " +:+ endpoint +:+ ": "
                      +:+ str_exn (AttributeError handshake "get")].
Proof.
  intros Ha Hj Hno. apply build_sse_tools_caught with
    (w' := {| frames := frames w
                        ++ [{| fr_endpoint := endpoint;
                               fr_headers := default ∅ headers;
                               fr_t := None |}];
              sent := sent w ++ [manifest_request endpoint headers];
              warnings := warnings w; stdout := stdout w |}).
  rewrite discover_unfold. cbv zeta. rewrite Ha, Hj.
  destruct handshake; try reflexivity. exfalso. eapply Hno. reflexivity.
Qed.

(** X4: discovery is all or nothing.  If one entry of the list is not a
    dict with a name, a description and an inputSchema, the result is the
    empty list, with one warning: the stubs of the entries before it, and
    of every well-formed entry, are dropped too. *)
Theorem one_unreadable_entry_drops_every_stub endpoint p headers w
    resp handshake items entry :
  answer (sent w) (manifest_request endpoint headers) = Responds resp ->
  json_loads (text resp) = Some handshake ->
  Py.get handshake "tools" (JArray []) = Return (JArray items) ->
  entry ∈ items ->
  listed_stub (length (frames w)) p entry = None ->
  snd (build_sse_tools endpoint p headers w) = Return []
  /\ exists e,
       warnings (fst (build_sse_tools endpoint p headers w))
       = warnings w ++ ["Failed to load tools from " +:+ endpoint +:+ ": "
                        +:+ str_exn e].
Proof.
  intros Ha Hj Hg Hin Hnone.
  rewrite (build_sse_tools_listed _ _ _ _ _ _ _ Ha Hj Hg).
  match goal with |- context [for_tools ?f p items ?a ?v] =>
    destruct (for_tools_raises f p items a v) as [e He];
      [apply Exists_exists; eauto|];
    pose proof (for_tools_quiet f p items a v) as (_ & Hw & _);
    destruct (for_tools f p items a v) as [w' [tools|e']]
  end; simpl in *; [discriminate|].
  split; [reflexivity|]. exists e'. rewrite Hw. reflexivity.
Qed.

End Discovery.

(** ** Stubs and the activations they read *)

Section Stubs.
Context `{PyLib} `{Remote} `{Adk}.

(** A discovery adds one activation and leaves the others as they are. *)
Lemma build_sse_tools_frames endpoint p headers w :
  length (frames (fst (build_sse_tools endpoint p headers w)))
  = S (length (frames w))
  /\ forall j, (j < length (frames w))%nat ->
       frames (fst (build_sse_tools endpoint p headers w)) !! j
       = frames w !! j.
Proof.
  rewrite build_sse_tools_unfold, discover_unfold. cbv zeta.
  assert (Hnew : forall fr : frame,
            length (frames w ++ [fr]) = S (length (frames w))
            /\ forall j, (j < length (frames w))%nat ->
                 (frames w ++ [fr]) !! j = frames w !! j).
  { intros fr. rewrite length_app. simpl. split; [lia|].
    intros j Hj. apply lookup_app_l. exact Hj. }
  destruct (answer _ _) as [resp|e]; simpl; [|apply Hnew].
  destruct (json_loads (text resp)) as [handshake|]; simpl; [|apply Hnew].
  destruct (Py.get handshake "tools" (JArray [])) as [listed|e]; simpl;
    [|apply Hnew].
  destruct (Py.iter listed) as [items|e]; simpl; [|apply Hnew].
  match goal with |- context [for_tools ?f p items ?a ?v] =>
    pose proof (for_tools_quiet f p items a v) as (_ & _ & _ & Hl);
    pose proof (for_tools_other_frames f p items a v) as Ho;
    destruct (for_tools f p items a v) as [w' [tools|e']]
  end; simpl in *; (split;
    [rewrite Hl; apply Hnew
    |intros j Hj; rewrite Ho by lia; apply Hnew; exact Hj]).
Qed.

(** What a discovery logs and prints. *)
Lemma build_sse_tools_log endpoint p headers w :
  stdout (fst (build_sse_tools endpoint p headers w)) = stdout w
  /\ exists logged,
       warnings (fst (build_sse_tools endpoint p headers w))
       = warnings w ++ logged
       /\ (length logged <= 1)%nat.
Proof.
  rewrite build_sse_tools_unfold.
  pose proof (discover_quiet endpoint p headers w) as (_ & Hw & Ho).
  destruct (discover endpoint p headers w) as [w' [tools|e]]; simpl in *.
  - split; [exact Ho|]. exists []. rewrite app_nil_r. auto.
  - split; [exact Ho|]. eexists [_]. rewrite Hw. simpl. auto.
Qed.

(** The request of a stub whose variables are bound and whose argument
    text is JSON. *)
Lemma make_call_sends f input_json w fr t n arguments :
  frames w !! clo_frame f = Some fr ->
  fr_t fr = Some t ->
  Py.getitem t "name" = Return n ->
  json_loads input_json = Some arguments ->
  sent (fst (make_call f input_json w))
  = sent w ++ [call_request fr n arguments].
Proof.
  intros Hf Ht Hn Hj. rewrite make_call_unfold, Hf, Ht, Hn, Hj. cbv zeta.
  match goal with |- context [answer ?l ?rq] =>
    destruct (answer l rq) as [r|e] end;
    [destruct (ok r)|]; reflexivity.
Qed.

(** X7: when the POST of a stub fails below HTTP, the stub raises that
    exception to its caller after this one request: it does not retry. *)
Theorem stub_raises_the_network_error f input_json w fr t tool arguments e :
  frames w !! clo_frame f = Some fr ->
  fr_t fr = Some t ->
  Py.getitem t "name" = Return tool ->
  json_loads input_json = Some arguments ->
  answer (sent w) (call_request fr tool arguments) = Fails e ->
  snd (make_call f input_json w) = Raise e
  /\ sent (fst (make_call f input_json w))
     = sent w ++ [call_request fr tool arguments].
Proof.
  intros Hf Ht Hn Hj Ha. rewrite make_call_unfold, Hf, Ht, Hn, Hj. cbv zeta.
  rewrite Ha. auto.
Qed.

(** X8: a later discovery does not disturb the stubs of an earlier one:
    the request such a stub sends on some argument text is the same
    after the later discovery as before it. *)
Theorem later_discovery_keeps_earlier_stubs endpoint p headers w f
    input_json rq :
  (clo_frame f < length (frames w))%nat ->
  sent (fst (make_call f input_json w)) = sent w ++ [rq] ->
  let w' := fst (build_sse_tools endpoint p headers w) in
  sent (fst (make_call f input_json w')) = sent w' ++ [rq].
Proof.
  intros Hlt Hsent w'.
  destruct (build_sse_tools_frames endpoint p headers w) as (_ & Hsame).
  specialize (Hsame _ Hlt). fold w' in Hsame.
  rewrite make_call_unfold in Hsent. rewrite make_call_unfold, Hsame.
  assert (Hno : sent w <> sent w ++ [rq]).
  { intros Heq. apply (f_equal length) in Heq.
    rewrite length_app in Heq. simpl in Heq. lia. }
  destruct (frames w !! clo_frame f) as [fr|]; [|contradiction].
  destruct (fr_t fr) as [t|]; [|contradiction].
  destruct (Py.getitem t "name") as [tool|e]; [|contradiction].
  destruct (json_loads input_json) as [arguments|]; [|contradiction].
  cbv zeta in *.
  assert (Hrq : rq = call_request fr tool arguments).
  { destruct (answer (sent w) _) as [r|e]; [destruct (ok r)|];
      simpl in Hsent; apply app_inv_head in Hsent; congruence. }
  subst rq.
  match goal with |- context [answer ?l ?q] =>
    destruct (answer l q) as [r|e] end;
    [destruct (ok r)|]; reflexivity.
Qed.

(** X9: loading the module always gives a list of tools, whatever the
    providers do.  It issues exactly two requests, the GET of the make
    manifest without headers and then the GET of the monday manifest,
    which carries [Authorization: Bearer <token>] when the token is not
    empty and no header otherwise; it logs at most two warnings and
    prints nothing. *)
Theorem startup_fetches_both_manifests monday_token w :
  (exists tools, snd (startup monday_token w) = Return tools)
  /\ sent (fst (startup monday_token w))
     = sent w
       ++ [{| req_method := GET; req_url := make_endpoint +:+ "/mcp";
              req_headers := ∅; req_json := None; req_timeout := 10 |};
           {| req_method := GET; req_url := monday_endpoint +:+ "/mcp";
              req_headers :=
                if String.eqb monday_token "" then ∅
                else {[ "Authorization" := "Bearer " +:+ monday_token ]};
              req_json := None; req_timeout := 10 |}]
  /\ stdout (fst (startup monday_token w)) = stdout w
  /\ exists logged,
       warnings (fst (startup monday_token w)) = warnings w ++ logged
       /\ (length logged <= 2)%nat.
Proof.
  unfold startup, bind.
  pose proof (build_sse_tools_returns make_endpoint "make" None w) as [ts1 R1].
  pose proof (build_sse_tools_sent make_endpoint "make" None w) as S1.
  pose proof (build_sse_tools_log make_endpoint "make" None w)
    as (O1 & l1 & W1 & L1).
  destruct (build_sse_tools make_endpoint "make" None w) as [w1 r1].
  simpl in *. subst r1.
  pose proof (build_sse_tools_returns monday_endpoint "monday"
                (Some (monday_headers monday_token)) w1) as [ts2 R2].
  pose proof (build_sse_tools_sent monday_endpoint "monday"
                (Some (monday_headers monday_token)) w1) as S2.
  pose proof (build_sse_tools_log monday_endpoint "monday"
                (Some (monday_headers monday_token)) w1)
    as (O2 & l2 & W2 & L2).
  destruct (build_sse_tools monday_endpoint "monday" _ w1) as [w2 r2].
  simpl in *. subst r2. unfold ret. simpl.
  split; [eauto|]. split.
  - rewrite S2, S1, <- app_assoc. reflexivity.
  - split; [congruence|]. exists (l1 ++ l2).
    rewrite W2, W1, <- app_assoc, length_app. split; [reflexivity|lia].
Qed.

End Stubs.

(** ** What the agent is given, with the library as it is *)

Section Given.
Context `{PyLib} `{Remote}.

(** X5: with the library the script imports, a manifest whose first
    entry is a dict with the three keys gives no stub: the entry is read,
    the constructor call of line 46 raises its [TypeError], and
    [build_sse_tools] returns the empty list with exactly one warning,
    for that error. *)
Theorem readable_entry_is_stopped_by_the_constructor endpoint p headers w
    resp handshake entry rest stub :
  answer (sent w) (manifest_request endpoint headers) = Responds resp ->
  json_loads (text resp) = Some handshake ->
  Py.get handshake "tools" (JArray []) = Return (JArray (entry :: rest)) ->
  listed_stub (length (frames w)) p entry = Some stub ->
  snd (@build_sse_tools _ _ google_adk endpoint p headers w) = Return []
  /\ warnings (fst (@build_sse_tools _ _ google_adk endpoint p headers w))
     = warnings w
       ++ ["Failed to load tools from " +:+ endpoint +:+ ": "
           +:+ str_exn (UnexpectedKeyword "FunctionTool.__init__()"
                          "function")].
Proof.
  intros Ha Hj Hg Hstub.
  rewrite (build_sse_tools_listed _ _ _ _ _ _ _ Ha Hj Hg).
  match goal with |- context [for_tools ?f p (entry :: rest) ?a ?v] =>
    pose proof (for_tools_stops_at_the_constructor f p entry rest a v
                  stub Hstub) as He;
    pose proof (@for_tools_quiet _ google_adk f p (entry :: rest) a v)
      as (_ & Hw & _);
    destruct (for_tools f p (entry :: rest) a v) as [w' [ts|e']]
  end; simpl in *; [discriminate|].
  injection He as ->. rewrite Hw. auto.
Qed.

(** X10: with the library the script imports, the agent is created
    without any tool, whatever the two providers serve: both discoveries
    end in the empty list, so [make_tools + monday_tools] is empty. *)
Theorem agent_is_created_without_tools monday_token w :
  snd (@startup _ _ google_adk monday_token w) = Return [].
Proof.
  unfold startup, bind.
  pose proof (build_sse_tools_gives_nothing make_endpoint "make" None w)
    as R1.
  destruct (build_sse_tools make_endpoint "make" None w) as [w1 r1].
  simpl in R1. subst r1.
  pose proof (build_sse_tools_gives_nothing monday_endpoint "monday"
                (Some (monday_headers monday_token)) w1) as R2.
  destruct (build_sse_tools monday_endpoint "monday" _ w1) as [w2 r2].
  simpl in R2. subst r2. reflexivity.
Qed.

End Given.

(** ** The chat loop over a whole input *)

Section Session.
Context `{PyLib} `{Remote} `{Runtime}.

(** What a call of a stub leaves of the process state. *)
Lemma make_call_keeps f input_json w :
  let w' := fst (make_call f input_json w) in
  frames w' = frames w /\ warnings w' = warnings w /\ stdout w' = stdout w
  /\ exists new, sent w' = sent w ++ new /\ Forall is_call new.
Proof.
  rewrite make_call_unfold.
  assert (Hnone : exists new, sent w = sent w ++ new /\ Forall is_call new)
    by (exists []; rewrite app_nil_r; auto).
  destruct (frames w !! clo_frame f) as [fr|]; simpl; [|auto].
  destruct (fr_t fr) as [t|]; simpl; [|auto].
  destruct (Py.getitem t "name") as [tool|e]; simpl; [|auto].
  destruct (json_loads input_json) as [arguments|]; simpl; [|auto].
  assert (Hone : exists new,
            sent w ++ [call_request fr tool arguments] = sent w ++ new
            /\ Forall is_call new).
  { eexists [_]. split; [reflexivity|]. repeat constructor. }
  destruct (answer _ _) as [r|e]; [destruct (ok r)|]; simpl; auto.
Qed.

(** The same for a whole response stream: it can only add calls. *)
Lemma consume_keeps {S : Type} (sc : script S) v w :
  let w' := fst (fst (consume sc v w)) in
  frames w' = frames w /\ warnings w' = warnings w /\ stdout w' = stdout w
  /\ exists new, sent w' = sent w ++ new /\ Forall is_call new.
Proof.
  revert v w. induction sc as [s|e s|ev k IH|f input_json k IH]; intros v w.
  - simpl. repeat split. exists []. rewrite app_nil_r. auto.
  - simpl. repeat split. exists []. rewrite app_nil_r. auto.
  - simpl. apply IH.
  - simpl.
    pose proof (make_call_keeps f input_json w) as (Hf & Hw & Ho & n1 & Hs & Hc).
    destruct (make_call f input_json w) as [w1 r]. simpl in *.
    destruct (IH r v w1) as (Hf' & Hw' & Ho' & n2 & Hs' & Hc').
    rewrite Hf', Hw', Ho', Hs', Hf, Hw, Ho, Hs.
    repeat split. exists (n1 ++ n2). rewrite app_assoc.
    split; [reflexivity|]. apply Forall_app. auto.
Qed.

(** A turn prints one or two chunks after what was printed before. *)
Lemma turn_keeps s user w :
  let w' := fst (turn s user w) in
  frames w' = frames w /\ warnings w' = warnings w
  /\ (exists out, stdout w' = stdout w ++ out)
  /\ exists new, sent w' = sent w ++ new /\ Forall is_call new.
Proof.
  rewrite turn_unfold.
  pose proof (consume_keeps (run_async s user) (PyStr "") w)
    as (Hf & Hw & Ho & Hs).
  destruct (consume (run_async s user) (PyStr "") w) as [[w1 s1] [v|e]];
    simpl in *; rewrite Ho; repeat split; eauto.
Qed.

Lemma step_keeps c c' :
  step c = Some c' ->
  frames (proc c') = frames (proc c)
  /\ warnings (proc c') = warnings (proc c)
  /\ (exists out, stdout (proc c') = stdout (proc c) ++ out)
  /\ exists new, sent (proc c') = sent (proc c) ++ new /\ Forall is_call new.
Proof.
  assert (Hnone : exists new,
            sent (proc c) = sent (proc c) ++ new /\ Forall is_call new)
    by (exists []; rewrite app_nil_r; auto).
  unfold step. destruct (st c).
  - destruct (stdin c) as [|user rest]; intros [= <-]; simpl;
      repeat split; eauto.
  - pose proof (turn_keeps (sess c) user (proc c)) as Hk.
    destruct (turn (sess c) user (proc c)) as [w s]. intros [= <-]. exact Hk.
  - discriminate.
  - discriminate.
Qed.


(** X15: the frames the stubs read and the warning log are the same after
    any number of transitions of the loop: a turn never rebinds what a
    stub closes over and never logs. *)
Theorem loop_keeps_the_stubs_bound fuel c :
  frames (proc (run fuel c)) = frames (proc c)
  /\ warnings (proc (run fuel c)) = warnings (proc c).
Proof.
  revert c. induction fuel as [|fuel IH]; intros c; simpl; [auto|].
  destruct (step c) as [c'|] eqn:Hs; [|auto].
  destruct (step_keeps c c' Hs) as (Hf & Hw & _).
  destruct (IH c') as (Hf' & Hw'). split; congruence.
Qed.

(** X16: the loop only adds to what was sent and printed, and every
    request it adds is a POST with the timeout of 15 seconds: after
    startup no manifest is fetched again. *)
Theorem loop_only_adds_calls fuel c :
  (exists out, stdout (proc (run fuel c)) = stdout (proc c) ++ out)
  /\ exists new,
       sent (proc (run fuel c)) = sent (proc c) ++ new
       /\ Forall (fun rq => req_method rq = POST /\ req_timeout rq = 15) new.
Proof.
  revert c. induction fuel as [|fuel IH]; intros c; simpl.
  - split; exists []; rewrite app_nil_r; auto.
  - destruct (step c) as [c'|] eqn:Hs.
    2:{ split; exists []; rewrite app_nil_r; auto. }
    destruct (step_keeps c c' Hs) as (_ & _ & [o1 Ho1] & n1 & Hn1 & Hc1).
    destruct (IH c') as ([o2 Ho2] & n2 & Hn2 & Hc2). split.
    + exists (o1 ++ o2). rewrite Ho2, Ho1, app_assoc. reflexivity.
    + exists (n1 ++ n2). rewrite Hn2, Hn1, app_assoc.
      split; [reflexivity|]. apply Forall_app. auto.
Qed.

(** A stream that raises after some events ends the turn with that
    exception, whatever the events were. *)
Lemma consume_broken_stream {S : Type} (evs : list event) e (s : S) v w :
  consume (broken_stream evs e s) v w = (w, s, Raise e).
Proof.
  revert v. induction evs as [|ev evs IH]; intros v; simpl.
  - reflexivity.
  - apply IH.
Qed.

(** X17: a turn has no partial result.  When the stream raises after
    having yielded events, nothing of their text is printed: the turn
    prints the error line and the hint, and only those. *)
Theorem failed_turn_prints_no_partial_reply s s' user evs e w :
  run_async s user = broken_stream evs e s' ->
  snd (turn s user w) = s'
  /\ stdout (fst (turn s user w))
     = stdout w ++ ["Error: " +:+ str_exn e +:+ Text.nl; hint +:+ Text.nl]
  /\ sent (fst (turn s user w)) = sent w.
Proof.
  intros Hr. rewrite turn_unfold, Hr, consume_broken_stream. simpl. auto.
Qed.

(** X18: when the stream of a turn ends normally and its events carry a
    string [content], or none, and no [text], the turn prints the last
    non-empty content, or the placeholder when there is none. *)
Theorem turn_prints_the_last_content s s' user evs w :
  run_async s user = stream evs s' ->
  Forall (fun ev => ev_text ev = None
                    /\ (ev_content ev = None
                        \/ exists c, ev_content ev = Some (PyStr c))) evs ->
  stdout (fst (turn s user w))
  = stdout w ++ [specified_reply evs +:+ Text.nl].
Proof.
  intros Hr Hall. rewrite turn_unfold, Hr, consume_stream. simpl.
  rewrite (reply_of_contents evs Hall). reflexivity.
Qed.

End Session.

(** ** The test of line 113 on whole lines *)

Lemma lstrip_blank ws : blank ws = true -> Text.lstrip ws = "".
Proof.
  induction ws as [|c ws IH]; simpl; [reflexivity|].
  destruct (Text.isspace c); simpl; [exact IH|discriminate].
Qed.

Lemma lstrip_app_blank ws s :
  blank ws = true -> Text.lstrip (ws +:+ s) = Text.lstrip s.
Proof.
  induction ws as [|c ws IH]; simpl; [reflexivity|].
  destruct (Text.isspace c); simpl; [exact IH|discriminate].
Qed.

Lemma rstrip_blank ws : blank ws = true -> Text.rstrip ws = "".
Proof.
  induction ws as [|c ws IH]; simpl; [reflexivity|].
  destruct (Text.isspace c); simpl; [|discriminate].
  intros Hb. rewrite (IH Hb). reflexivity.
Qed.

Lemma rstrip_app_blank s ws :
  blank ws = true -> Text.rstrip (s +:+ ws) = Text.rstrip s.
Proof.
  intros Hb. induction s as [|c s IH]; simpl.
  - apply rstrip_blank. exact Hb.
  - rewrite IH. reflexivity.
Qed.

Lemma strip_app_blank s ws :
  blank ws = true -> Text.strip (s +:+ ws) = Text.strip s.
Proof.
  intros Hb. unfold Text.strip. induction s as [|c s IH].
  - change ("" +:+ ws) with ws. rewrite (lstrip_blank ws Hb). reflexivity.
  - change (String c s +:+ ws) with (String c (s +:+ ws)).
    cbn [Text.lstrip]. destruct (Text.isspace c); [exact IH|].
    apply (rstrip_app_blank (String c s) ws Hb).
Qed.

(** Lowering a character does not make or unmake white space. *)
Lemma isspace_lower_char c : Text.isspace (Text.lower_char c) = Text.isspace c.
Proof.
  destruct c as [[] [] [] [] [] [] [] []]; vm_compute; reflexivity.
Qed.

Lemma lstrip_lower s : Text.lstrip (Text.lower s) = Text.lower (Text.lstrip s).
Proof.
  induction s as [|c s IH]; simpl; [reflexivity|].
  rewrite isspace_lower_char. destruct (Text.isspace c); [exact IH|reflexivity].
Qed.

Lemma rstrip_lower s : Text.rstrip (Text.lower s) = Text.lower (Text.rstrip s).
Proof.
  induction s as [|c s IH]; simpl; [reflexivity|].
  rewrite IH, isspace_lower_char.
  destruct (Text.rstrip s); simpl; [|reflexivity].
  destruct (Text.isspace c); reflexivity.
Qed.

Lemma strip_lower s : Text.strip (Text.lower s) = Text.lower (Text.strip s).
Proof. unfold Text.strip. rewrite lstrip_lower, rstrip_lower. reflexivity. Qed.

(** X19: white space around a line does not change whether it ends the
    loop: blanks, tabs, line ends and the other white space before and
    after the typed text are ignored by the test. *)
Theorem is_quit_ignores_surrounding_white_space before user after :
  blank before = true ->
  blank after = true ->
  is_quit (before +:+ user +:+ after) = is_quit user.
Proof.
  intros Hb Ha. unfold is_quit.
  assert (Hs : Text.strip (before +:+ user +:+ after) = Text.strip user).
  { unfold Text.strip at 1. rewrite (lstrip_app_blank before _ Hb).
    apply (strip_app_blank user after Ha). }
  rewrite Hs. reflexivity.
Qed.

(** X20: the test does not look at letter case: two lines that are equal
    once lowered both end the loop or both do not. *)
Theorem is_quit_ignores_case a b :
  Text.lower a = Text.lower b -> is_quit a = is_quit b.
Proof.
  intros Hl. unfold is_quit. rewrite <- !strip_lower, Hl. reflexivity.
Qed.

(** ** The further properties at concrete inputs *)

Lemma unreachable_provider_gives_no_tools_witness :
  snd (@build_sse_tools Sample.py Sample.unreachable_provider google_adk
         monday_endpoint "monday" None Sample.fresh) = Return []
  /\ warnings (fst (@build_sse_tools Sample.py Sample.unreachable_provider google_adk
                      monday_endpoint "monday" None Sample.fresh))
     = ["Failed to load tools from https://mcp.monday.com/sse: timed out"].
Proof.
  exact (@unreachable_provider_gives_no_tools Sample.py
           Sample.unreachable_provider google_adk monday_endpoint "monday" None
           Sample.fresh (RequestException "timed out") eq_refl).
Defined.

Lemma non_json_manifest_gives_no_tools_witness :
  snd (@build_sse_tools Sample.py Sample.html_provider google_adk
         monday_endpoint "monday" None Sample.fresh) = Return []
  /\ warnings (fst (@build_sse_tools Sample.py Sample.html_provider google_adk
                      monday_endpoint "monday" None Sample.fresh))
     = ["Failed to load tools from https://mcp.monday.com/sse: Expecting value"].
Proof.
  exact (@non_json_manifest_gives_no_tools Sample.py Sample.html_provider google_adk
           monday_endpoint "monday" None Sample.fresh
           {| status_code := 502; text := "<html>Bad Gateway</html>" |}
           eq_refl eq_refl).
Defined.

Lemma manifest_that_is_no_object_gives_no_tools_witness :
  snd (@build_sse_tools Sample.py_more Sample.null_provider google_adk
         monday_endpoint "monday" None Sample.fresh) = Return []
  /\ warnings (fst (@build_sse_tools Sample.py_more Sample.null_provider google_adk
                      monday_endpoint "monday" None Sample.fresh))
     = ["Failed to load tools from https://mcp.monday.com/sse: object has no attribute get"].
Proof.
  refine (@manifest_that_is_no_object_gives_no_tools Sample.py_more
            Sample.null_provider google_adk monday_endpoint "monday" None Sample.fresh
            {| status_code := 200; text := Sample.null_text |} JNull
            eq_refl eq_refl _).
  intros members. discriminate.
Defined.

Lemma one_unreadable_entry_drops_every_stub_witness :
  snd (@build_sse_tools Sample.py_more Sample.half_provider google_adk
         monday_endpoint "monday" None Sample.fresh) = Return []
  /\ exists e,
       warnings (fst (@build_sse_tools Sample.py_more Sample.half_provider google_adk
                        monday_endpoint "monday" None Sample.fresh))
       = warnings Sample.fresh
         ++ ["Failed to load tools from " +:+ monday_endpoint +:+ ": "
             +:+ Sample.show_exn e].
Proof.
  refine (@one_unreadable_entry_drops_every_stub Sample.py_more
            Sample.half_provider google_adk monday_endpoint "monday" None Sample.fresh
            {| status_code := 200; text := Sample.half_manifest_text |}
            Sample.half_manifest
            [Sample.entry "create_item" "x"; Sample.half_entry]
            Sample.half_entry eq_refl eq_refl eq_refl _ eq_refl).
  apply list_elem_of_further, list_elem_of_here.
Defined.

Lemma readable_entry_is_stopped_by_the_constructor_witness :
  snd (@build_sse_tools Sample.py Sample.two_tools_provider google_adk
         monday_endpoint "monday" None Sample.fresh) = Return []
  /\ warnings (fst (@build_sse_tools Sample.py Sample.two_tools_provider
                      google_adk monday_endpoint "monday" None
                      Sample.fresh))
     = ["Failed to load tools from https://mcp.monday.com/sse: "
        +:+ "FunctionTool.__init__() got an unexpected keyword argument "
        +:+ "'function'"].
Proof.
  exact (@readable_entry_is_stopped_by_the_constructor Sample.py
           Sample.two_tools_provider monday_endpoint "monday" None
           Sample.fresh
           {| status_code := 200; text := Sample.two_tools_text |}
           Sample.two_tools (Sample.entry "create_item" "x")
           [Sample.entry "delete_item" "y"]
           {| function := {| clo_frame := 0;
                             clo_name := "monday_create_item" |};
              name := "monday_create_item"; description := JString "x";
              parameters := JObject [] |}
           eq_refl eq_refl eq_refl eq_refl).
Defined.

Lemma stub_raises_the_network_error_witness :
  snd (@make_call Sample.py Sample.dropping_provider Sample.first_stub
         Sample.args_text (Sample.discovered Sample.dropping_provider))
  = Raise (RequestException "timed out").
Proof.
  refine (proj1 (@stub_raises_the_network_error Sample.py
                   Sample.dropping_provider Sample.first_stub
                   Sample.args_text
                   (Sample.discovered Sample.dropping_provider)
                   _ _ _ _ _ eq_refl eq_refl eq_refl eq_refl eq_refl)).
Defined.

Lemma later_discovery_keeps_earlier_stubs_witness :
  exists rq,
    req_url rq = "https://mcp.monday.com/sse/call"
    /\ let w' := fst (@build_sse_tools Sample.py Sample.one_tool_provider google_adk
                        make_endpoint "make" None
                        (Sample.discovered Sample.one_tool_provider)) in
       sent (fst (@make_call Sample.py Sample.one_tool_provider
                    Sample.first_stub Sample.args_text w'))
       = sent w' ++ [rq].
Proof.
  eexists. split; [|
    refine (@later_discovery_keeps_earlier_stubs Sample.py
              Sample.one_tool_provider google_adk make_endpoint "make" None
              (Sample.discovered Sample.one_tool_provider)
              Sample.first_stub Sample.args_text _ _ eq_refl)].
  - reflexivity.
  - simpl. lia.
Defined.



Lemma run_terminated_witness :
  exists user, user ∈ ["hello"; "QUIT"] /\ is_quit user = true.
Proof.
  refine (@run_terminated Sample.py Sample.one_tool_provider
            (Sample.saying [Sample.content_event "hi"]) 3
            (@Build_config (Sample.saying [Sample.content_event "hi"])
               AWAITING_INPUT ["hello"; "QUIT"] tt Sample.fresh) _ eq_refl).
  simpl. discriminate.
Defined.

Lemma failed_turn_prints_no_partial_reply_witness :
  stdout (fst (@turn Sample.py Sample.one_tool_provider
                 (Sample.interrupted [Sample.content_event "partial"]
                    (HTTPError 500))
                 tt "list my boards" Sample.fresh))
  = ["Error: HTTP error" +:+ Text.nl; hint +:+ Text.nl].
Proof.
  refine (proj1 (proj2 (@failed_turn_prints_no_partial_reply Sample.py
                          Sample.one_tool_provider
                          (Sample.interrupted
                             [Sample.content_event "partial"]
                             (HTTPError 500))
                          tt tt "list my boards"
                          [Sample.content_event "partial"] (HTTPError 500)
                          Sample.fresh eq_refl))).
Defined.

Lemma turn_prints_the_last_content_witness :
  stdout (fst (@turn Sample.py Sample.one_tool_provider
                 (Sample.saying [Sample.content_event "thinking";
                                 Sample.content_event "done";
                                 Sample.content_event ""])
                 tt "hello" Sample.fresh))
  = ["done" +:+ Text.nl].
Proof.
  refine (@turn_prints_the_last_content Sample.py Sample.one_tool_provider
            (Sample.saying [Sample.content_event "thinking";
                            Sample.content_event "done";
                            Sample.content_event ""])
            tt tt "hello"
            [Sample.content_event "thinking"; Sample.content_event "done";
             Sample.content_event ""]
            Sample.fresh eq_refl _).
  do 3 (constructor;
        [split; [reflexivity|right; eexists; reflexivity]|]).
  constructor.
Defined.

Lemma is_quit_ignores_surrounding_white_space_witness :
  is_quit ("  " +:+ "Quit" +:+ (" " +:+ Text.nl)) = is_quit "Quit".
Proof.
  exact (is_quit_ignores_surrounding_white_space "  " "Quit"
           (" " +:+ Text.nl) eq_refl eq_refl).
Defined.

Lemma is_quit_ignores_case_witness : is_quit "eXiT" = is_quit "exit".
Proof. exact (is_quit_ignores_case "eXiT" "exit" eq_refl). Defined.

(** ** Discovery: what is logged and when *)

Section Warnings.
Context `{PyLib} `{Remote} `{Adk}.

(** A list is never equal to itself with one more element. *)
Lemma snoc_differs {A : Type} (l : list A) (x : A) : l ++ [x] <> l.
Proof.
  intros Heq. apply (f_equal length) in Heq.
  rewrite length_app in Heq. simpl in Heq. lia.
Qed.

(** X21: a warning and tools never come together.  Whenever
    [build_sse_tools] logs, the list it returns is empty and the log has
    grown by exactly one message; whenever it returns a stub, the log is
    as it was. *)
Theorem warning_means_no_tools endpoint p headers w :
  let out := build_sse_tools endpoint p headers w in
  (warnings (fst out) <> warnings w ->
   snd out = Return []
   /\ exists msg, warnings (fst out) = warnings w ++ [msg])
  /\ (forall tools, snd out = Return tools -> tools <> [] ->
      warnings (fst out) = warnings w).
Proof.
  cbv zeta. rewrite build_sse_tools_unfold.
  pose proof (discover_quiet endpoint p headers w) as (_ & Hw & _).
  destruct (discover endpoint p headers w) as [w' [tools|e]]; simpl in *.
  - split; [congruence|]. intros; assumption.
  - split.
    + intros _. split; [reflexivity|]. rewrite Hw. eauto.
    + intros tools [= <-] Hne. congruence.
Qed.

(** X22: a ["tools"] value that is not a list gives no tools.  A number,
    a boolean or [null] cannot be iterated; a string or an object is
    iterated but its items are strings, which have no ["name"].  All of
    them are logged, but for the empty string and the empty object, which
    go through like the empty list. *)
Theorem tools_value_that_is_no_list_gives_no_tools endpoint p headers w
    resp handshake listed :
  answer (sent w) (manifest_request endpoint headers) = Responds resp ->
  json_loads (text resp) = Some handshake ->
  Py.get handshake "tools" (JArray []) = Return listed ->
  (forall items, listed <> JArray items) ->
  snd (build_sse_tools endpoint p headers w) = Return []
  /\ (warnings (fst (build_sse_tools endpoint p headers w)) = warnings w
      <-> listed = JString "" \/ listed = JObject []).
Proof.
  intros Ha Hj Hg Hno.
  rewrite build_sse_tools_unfold, discover_unfold. cbv zeta.
  rewrite Ha, Hj, Hg.
  assert (Hstr : forall (strs : list string) v,
            strs <> [] ->
            exists e, snd (for_tools (length (frames w)) p
                             (map JString strs) [] v) = Raise e).
  { intros strs v Hne. apply for_tools_raises.
    destruct strs as [|s strs]; [congruence|]. left. reflexivity. }
  destruct listed as [| b | z | bits | s | items | members].
  - simpl. split; [reflexivity|]. split.
    + intros Hw. destruct (snoc_differs _ _ Hw).
    + intros [|]; discriminate.
  - simpl. split; [reflexivity|]. split.
    + intros Hw. destruct (snoc_differs _ _ Hw).
    + intros [|]; discriminate.
  - simpl. split; [reflexivity|]. split.
    + intros Hw. destruct (snoc_differs _ _ Hw).
    + intros [|]; discriminate.
  - simpl. split; [reflexivity|]. split.
    + intros Hw. destruct (snoc_differs _ _ Hw).
    + intros [|]; discriminate.
  - destruct s as [|c s].
    + simpl. split; [reflexivity|]. split; auto.
    + unfold Py.iter.
      match goal with |- context [for_tools ?f p ?its ?a ?v] =>
        assert (He : exists e, snd (for_tools f p its a v) = Raise e)
          by (apply (Hstr (Text.chars (String c s)) v); discriminate);
        pose proof (for_tools_quiet f p its a v) as (_ & Hw' & _);
        destruct (for_tools f p its a v) as [w' [ts|e']]
      end; destruct He as [e He]; simpl in *; [discriminate|].
      split; [reflexivity|]. split.
      * rewrite Hw'. intros Hw. destruct (snoc_differs _ _ Hw).
      * intros [|]; discriminate.
  - destruct (Hno items eq_refl).
  - destruct members as [|[k v0] members].
    + simpl. split; [reflexivity|]. split; auto.
    + unfold Py.iter.
      match goal with |- context [for_tools ?f p ?its ?a ?v] =>
        assert (He : exists e, snd (for_tools f p its a v) = Raise e)
          by (apply for_tools_raises; left; reflexivity);
        pose proof (for_tools_quiet f p its a v) as (_ & Hw' & _);
        destruct (for_tools f p its a v) as [w' [ts|e']]
      end; destruct He as [e He]; simpl in *; [discriminate|].
      split; [reflexivity|]. split.
      * rewrite Hw'. intros Hw. destruct (snoc_differs _ _ Hw).
      * intros [|]; discriminate.
Qed.

End Warnings.

Lemma warning_means_no_tools_witness :
  snd (@build_sse_tools Sample.py Sample.html_provider google_adk
         monday_endpoint "monday" None Sample.fresh) = Return []
  /\ exists msg,
       warnings (fst (@build_sse_tools Sample.py Sample.html_provider google_adk
                        monday_endpoint "monday" None Sample.fresh))
       = warnings Sample.fresh ++ [msg].
Proof.
  refine (proj1 (@warning_means_no_tools Sample.py Sample.html_provider google_adk
                   monday_endpoint "monday" None Sample.fresh) _).
  simpl. discriminate.
Defined.

Lemma tools_value_that_is_no_list_gives_no_tools_witness :
  snd (@build_sse_tools
         {| json_loads := fun _ => Some (JObject [("tools", JString "ab")]);
            str_other := fun _ => "<object>";
            str_exn := Sample.show_exn |}
         Sample.one_tool_provider google_adk monday_endpoint "monday" None
         Sample.fresh)
  = Return [].
Proof.
  refine (proj1 (@tools_value_that_is_no_list_gives_no_tools
                   {| json_loads :=
                        fun _ => Some (JObject [("tools", JString "ab")]);
                      str_other := fun _ => "<object>";
                      str_exn := Sample.show_exn |}
                   Sample.one_tool_provider google_adk monday_endpoint
                   "monday" None Sample.fresh
                   {| status_code := 200; text := Sample.one_tool_text |}
                   (JObject [("tools", JString "ab")]) (JString "ab")
                   eq_refl eq_refl eq_refl _)).
  intros items. discriminate.
Defined.
